(** * Bonsai pump / monitor controller

    A shallow embedding of the pump controller and the monitor loop of
    [bonsai.py] (class [BonsaiController]) and of
    [plugins/bonsai_plugin.py] (class [BonsaiPlugin]).

    Conventions of the embedding
    - Python [float] timestamps and moisture percentages are exact
      rationals ([Q]); [int] is [Z]. Float arithmetic is the exact one:
      its rounding, and the [OverflowError] of an [int] too large to be
      converted to a float, are not part of the embedding
      ([float_exact] describes the [int]s that meet neither).
    - Values that come out of JSON (the configuration dictionary) are
      [pyval]s; [int(..)], [bool(..)] and the comparisons of a float with
      such a value are the partial functions [py_int], [py_bool],
      [py_lt], [py_ge] (a [TypeError] or [ValueError] is [Raise]).
    - The controller object is a record; methods are state-passing
      computations in the monad [M], whose results are [Ok v] or
      [Raise e], the state being kept in both cases.
    - What other threads and the hardware do is an explicit input: clock
      readings, sensor outcomes, and, for the polling loop of a pump run,
      a list of [tick]s.
    - Every call that reaches the relay, the sensor, the database or that
      runs a locked block of the pump worker is recorded, in order, in
      the [trace] field of the controller. *)

From Stdlib Require Import ZArith QArith Qround String Ascii List Bool Lia Lqa.
From stdpp Require Import gmap strings.
Import ListNotations.

Local Open Scope string_scope.
Local Open Scope list_scope.
Local Open Scope Z_scope.

(** ** Python values *)

Inductive pyval : Type :=
| PNone
| PBool (b : bool)
| PInt (z : Z)
| PFloat (q : Q)
| PNaN
| PInf (negative : bool)
| PStr (s : string)
| PContainer (nonempty : bool).

Inductive exn : Type :=
| KeyError (k : string)
| TypeError
| ValueError
| OverflowError
| RuntimeError.

Inductive result (A : Type) : Type :=
| Ok (a : A)
| Raise (e : exn).
Arguments Ok {A} a.
Arguments Raise {A} e.

(** [bool(v)] *)
Definition py_bool (v : pyval) : bool :=
  match v with
  | PNone => false
  | PBool b => b
  | PInt z => negb (z =? 0)
  | PFloat q => negb (Qeq_bool q 0)
  | PNaN => true
  | PInf _ => true
  | PStr s => negb (String.eqb s "")
  | PContainer ne => ne
  end.

(** Truncation toward zero, [int(x)] for a finite float [x]. *)
Definition Qtrunc (q : Q) : Z := Z.quot (Qnum q) (Z.pos (Qden q)).

(** *** [int(s)] for a string: optional blanks, an optional sign, decimal
    digits in groups separated by single underscores, optional blanks.
    Blanks and digits are the ASCII ones; the other Unicode blanks and
    decimal digits, which Python accepts as well, do not convert here. *)

Definition is_blank (c : ascii) : bool :=
  let n := nat_of_ascii c in
  ((9 <=? n) && (n <=? 13) || (n =? 32))%nat.

Definition digit_of (c : ascii) : option Z :=
  let n := nat_of_ascii c in
  if ((48 <=? n) && (n <=? 57))%nat then Some (Z.of_nat n - 48) else None.

Fixpoint lstrip (s : string) : string :=
  match s with
  | String c s' => if is_blank c then lstrip s' else s
  | EmptyString => s
  end.

Definition all_blank (s : string) : bool :=
  match lstrip s with EmptyString => true | _ => false end.

(** [digits acc prev s]: [prev] tells whether the previous character was a
    digit (an underscore is accepted only between two digits). *)
Fixpoint digits (acc : Z) (prev : bool) (s : string) : option Z :=
  match s with
  | EmptyString => if prev then Some acc else None
  | String c s' =>
      match digit_of c with
      | Some d => digits (10 * acc + d) true s'
      | None =>
          if Ascii.eqb c "_" then
            if prev then
              match s' with
              | String c' _ =>
                  match digit_of c' with
                  | Some _ => digits acc false s'
                  | None => None
                  end
              | EmptyString => None
              end
            else None
          else if prev && all_blank s then Some acc else None
      end
  end.

Definition int_of_str (s : string) : option Z :=
  match lstrip s with
  | String "-" s' => option_map Z.opp (digits 0 false s')
  | String "+" s' => digits 0 false s'
  | s' => digits 0 false s'
  end.

(** [int(v)] *)
Definition py_int (v : pyval) : result Z :=
  match v with
  | PNone => Raise TypeError
  | PBool b => Ok (if b then 1 else 0)
  | PInt z => Ok z
  | PFloat q => Ok (Qtrunc q)
  | PNaN => Raise ValueError
  | PInf _ => Raise OverflowError
  | PStr s => match int_of_str s with Some z => Ok z | None => Raise ValueError end
  | PContainer _ => Raise TypeError
  end.

(** [x < v] and [x >= v] for a float [x]. *)
Definition py_lt (x : Q) (v : pyval) : result bool :=
  match v with
  | PBool b => Ok (negb (Qle_bool (inject_Z (if b then 1 else 0)) x))
  | PInt z => Ok (negb (Qle_bool (inject_Z z) x))
  | PFloat q => Ok (negb (Qle_bool q x))
  | PNaN => Ok false
  | PInf negative => Ok (negb negative)
  | PNone | PStr _ | PContainer _ => Raise TypeError
  end.

Definition py_gt (x : Q) (v : pyval) : result bool :=
  match v with
  | PBool b => Ok (negb (Qle_bool x (inject_Z (if b then 1 else 0))))
  | PInt z => Ok (negb (Qle_bool x (inject_Z z)))
  | PFloat q => Ok (negb (Qle_bool x q))
  | PNaN => Ok false
  | PInf negative => Ok negative
  | PNone | PStr _ | PContainer _ => Raise TypeError
  end.

Definition py_ge (x : Q) (v : pyval) : result bool :=
  match v with
  | PBool b => Ok (Qle_bool (inject_Z (if b then 1 else 0)) x)
  | PInt z => Ok (Qle_bool (inject_Z z) x)
  | PFloat q => Ok (Qle_bool q x)
  | PNaN => Ok false
  | PInf negative => Ok negative
  | PNone | PStr _ | PContainer _ => Raise TypeError
  end.

(** [round(x, 1)]: to one decimal, ties to even. *)
Definition round_half_even (q : Q) : Z :=
  let fl := Qfloor q in
  match Qcompare (q - inject_Z fl) (1 # 2) with
  | Lt => fl
  | Gt => fl + 1
  | Eq => if Z.even fl then fl else fl + 1
  end.

Definition round1 (q : Q) : Q := Qred (Qmake (round_half_even (q * 10)) 10).

(** ** Data model *)

(** [PumpState] (the dataclass). *)
Record PumpState : Type := mkPumpState {
  running : bool;
  mode : string;
  started_at : Q;
  ends_at : Q;
  stop_reason : string
}.

(** A row of table [moisture_readings] and a row of [watering_events]. *)
Record MoistureReading : Type := mkMoistureReading {
  mr_timestamp : Q;
  mr_moisture_percent : Q
}.

Record WateringEvent : Type := mkWateringEvent {
  we_timestamp : Q;
  we_duration_seconds : Q;
  we_moisture_before : option Q;
  we_moisture_after : option Q;
  we_mode : string;
  we_stop_reason : string
}.

Inductive level : Type := LOW | HIGH.

(** The calls that leave the controller object, in the order they are made. *)
Inductive effect : Type :=
| GpioOutput (pin : Z) (lvl : level)
| GpioCleanup
| SensorConnect (ok : bool)
| SensorRead (raw : option Z)
| InsertMoisture (r : MoistureReading)
| InsertWatering (e : WateringEvent)
| PumpBegin (p : PumpState)
| PumpReset (p : PumpState)
| ThreadStart (mode : string) (seconds : Z) (moisture_before : option Q)
| DisplayShow (status : string)
| DisplayClear.

(** The attributes of the controller object, the hardware line it drives
    and the two database tables. [last_watered] holds the clock reading
    that the source formats as hours and minutes. *)
Record Controller : Type := mkController {
  config : gmap string pyval;
  current_moisture : option Q;
  last_watered : option Q;
  last_water_time : Q;
  manual_toggle_on : bool;
  pump : PumpState;
  _shutdown : bool;
  _pump_stop_requested : bool;
  sensor : bool;
  display : bool;
  relay : level;
  moisture_readings : list MoistureReading;
  watering_events : list WateringEvent;
  trace : list effect
}.

Definition set_config (v : gmap string pyval) (c : Controller) : Controller :=
  mkController v (current_moisture c) (last_watered c) (last_water_time c)
    (manual_toggle_on c) (pump c) (_shutdown c) (_pump_stop_requested c)
    (sensor c) (display c) (relay c) (moisture_readings c) (watering_events c) (trace c).
Definition set_current_moisture (v : option Q) (c : Controller) : Controller :=
  mkController (config c) v (last_watered c) (last_water_time c)
    (manual_toggle_on c) (pump c) (_shutdown c) (_pump_stop_requested c)
    (sensor c) (display c) (relay c) (moisture_readings c) (watering_events c) (trace c).
Definition set_last_watered (v : option Q) (c : Controller) : Controller :=
  mkController (config c) (current_moisture c) v (last_water_time c)
    (manual_toggle_on c) (pump c) (_shutdown c) (_pump_stop_requested c)
    (sensor c) (display c) (relay c) (moisture_readings c) (watering_events c) (trace c).
Definition set_last_water_time (v : Q) (c : Controller) : Controller :=
  mkController (config c) (current_moisture c) (last_watered c) v
    (manual_toggle_on c) (pump c) (_shutdown c) (_pump_stop_requested c)
    (sensor c) (display c) (relay c) (moisture_readings c) (watering_events c) (trace c).
Definition set_manual_toggle_on (v : bool) (c : Controller) : Controller :=
  mkController (config c) (current_moisture c) (last_watered c) (last_water_time c)
    v (pump c) (_shutdown c) (_pump_stop_requested c)
    (sensor c) (display c) (relay c) (moisture_readings c) (watering_events c) (trace c).
Definition set_pump (v : PumpState) (c : Controller) : Controller :=
  mkController (config c) (current_moisture c) (last_watered c) (last_water_time c)
    (manual_toggle_on c) v (_shutdown c) (_pump_stop_requested c)
    (sensor c) (display c) (relay c) (moisture_readings c) (watering_events c) (trace c).
Definition set_shutdown (v : bool) (c : Controller) : Controller :=
  mkController (config c) (current_moisture c) (last_watered c) (last_water_time c)
    (manual_toggle_on c) (pump c) v (_pump_stop_requested c)
    (sensor c) (display c) (relay c) (moisture_readings c) (watering_events c) (trace c).
Definition set_pump_stop_requested (v : bool) (c : Controller) : Controller :=
  mkController (config c) (current_moisture c) (last_watered c) (last_water_time c)
    (manual_toggle_on c) (pump c) (_shutdown c) v
    (sensor c) (display c) (relay c) (moisture_readings c) (watering_events c) (trace c).
Definition set_sensor (v : bool) (c : Controller) : Controller :=
  mkController (config c) (current_moisture c) (last_watered c) (last_water_time c)
    (manual_toggle_on c) (pump c) (_shutdown c) (_pump_stop_requested c)
    v (display c) (relay c) (moisture_readings c) (watering_events c) (trace c).
Definition set_relay (v : level) (c : Controller) : Controller :=
  mkController (config c) (current_moisture c) (last_watered c) (last_water_time c)
    (manual_toggle_on c) (pump c) (_shutdown c) (_pump_stop_requested c)
    (sensor c) (display c) v (moisture_readings c) (watering_events c) (trace c).
Definition set_moisture_readings (v : list MoistureReading) (c : Controller) : Controller :=
  mkController (config c) (current_moisture c) (last_watered c) (last_water_time c)
    (manual_toggle_on c) (pump c) (_shutdown c) (_pump_stop_requested c)
    (sensor c) (display c) (relay c) v (watering_events c) (trace c).
Definition set_watering_events (v : list WateringEvent) (c : Controller) : Controller :=
  mkController (config c) (current_moisture c) (last_watered c) (last_water_time c)
    (manual_toggle_on c) (pump c) (_shutdown c) (_pump_stop_requested c)
    (sensor c) (display c) (relay c) (moisture_readings c) v (trace c).
Definition set_trace (v : list effect) (c : Controller) : Controller :=
  mkController (config c) (current_moisture c) (last_watered c) (last_water_time c)
    (manual_toggle_on c) (pump c) (_shutdown c) (_pump_stop_requested c)
    (sensor c) (display c) (relay c) (moisture_readings c) (watering_events c) v.

(** ** Inputs from the environment *)

(** What the soil sensor does during one [_read_moisture]: whether a
    handle can be opened, and what [moisture_read()] gives ([None]: it
    raises). *)
Record sensor_env : Type := mkSensorEnv {
  se_connect_ok : bool;
  se_raw : option Z
}.

(** What other threads do to the two [threading.Event]s. *)
Inductive ext_call : Type :=
| CallStopPump
| CallShutdownSet.

(** One iteration of the polling loop of a pump run: the calls of other
    threads that land before its tests, and the reading of [time.time()]
    that its deadline test gets. *)
Record tick : Type := mkTick {
  tk_calls : list ext_call;
  tk_now : Q
}.

(** The clock readings and the sensor outcome of one pump run, in the
    order the worker asks for them. *)
Record run_env : Type := mkRunEnv {
  re_started_at : Q;
  re_started : Q;
  re_ticks : list tick;
  re_stopped : Q;
  re_sensor : sensor_env;
  re_logged : Q;
  re_watered : Q;
  re_last : Q
}.

(** The same for one cycle of the monitor loop. *)
Record cycle_env : Type := mkCycleEnv {
  ce_sensor : sensor_env;
  ce_logged : Q;
  ce_now : Q
}.

(** ** The monad of methods *)

Definition M (S A : Type) : Type := S -> result A * S.

Definition ret {S A : Type} (a : A) : M S A := fun s => (Ok a, s).

Definition bind {S A B : Type} (m : M S A) (f : A -> M S B) : M S B :=
  fun s =>
    match m s with
    | (Ok a, s') => f a s'
    | (Raise e, s') => (Raise e, s')
    end.

Definition lift {S A : Type} (r : result A) : M S A := fun s => (r, s).

Notation "'let*' x ':=' m 'in' k" := (bind m (fun x => k))
  (at level 10, x name, m at level 100, k at level 200).
Notation "m ';;;' k" := (bind m (fun _ => k))
  (at level 199, k at level 200, right associativity).

(** A state that contains the attributes of the controller. *)
Class CtrlState (S : Type) : Type := {
  ctrl : S -> Controller;
  upd : (Controller -> Controller) -> S -> S
}.

#[global] Instance CtrlState_Controller : CtrlState Controller :=
  {| ctrl := fun c => c; upd := fun f c => f c |}.

Section Primitives.
Context {S : Type} `{CtrlState S}.

Definition read {A : Type} (f : Controller -> A) : M S A :=
  fun s => (Ok (f (ctrl s)), s).

Definition modify (f : Controller -> Controller) : M S unit :=
  fun s => (Ok tt, upd f s).

Definition emit (e : effect) : M S unit :=
  modify (fun c => set_trace (trace c ++ [e]) c).

(** [GPIO.output(pin, lvl)] *)
Definition gpio_output (pin : Z) (lvl : level) : M S unit :=
  modify (set_relay lvl) ;;; emit (GpioOutput pin lvl).

(** [d[k]] *)
Definition item (d : gmap string pyval) (k : string) : result pyval :=
  match d !! k with
  | Some v => Ok v
  | None => Raise (KeyError k)
  end.

(** [self.config[k]] *)
Definition config_item (k : string) : M S pyval :=
  let* cfg := read config in lift (item cfg k).

(** A call of another thread landing on the two events. *)
Definition interfere (c : ext_call) : M S unit :=
  match c with
  | CallStopPump => modify (set_pump_stop_requested true)
  | CallShutdownSet => modify (set_shutdown true)
  end.

Fixpoint interfere_all (cs : list ext_call) : M S unit :=
  match cs with
  | [] => ret tt
  | c :: cs' => interfere c ;;; interfere_all cs'
  end.
End Primitives.

(** ** [bonsai.py]: class [BonsaiController] *)

Module Bonsai.

Definition RELAY_PIN : Z := 26.
Definition PUMP_ON_LEVEL : level := LOW.
Definition PUMP_OFF_LEVEL : level := HIGH.

Definition DEFAULT_CONFIG : gmap string pyval :=
  list_to_map
    [ ("moisture_threshold_low", PInt 35);
      ("moisture_threshold_high", PInt 65);
      ("watering_duration_seconds", PInt 60);
      ("min_water_interval_seconds", PInt 28800);
      ("sensor_read_interval_seconds", PInt 300);
      ("pump_max_runtime_seconds", PInt 120);
      ("manual_max_runtime_seconds", PInt 30);
      ("auto_watering_enabled", PBool true);
      ("ha_enabled", PBool false);
      ("ha_base_url", PStr "http://homeassistant.local:8123");
      ("ha_token", PStr "");
      ("ha_switch_entity", PStr "");
      ("ha_light_entity", PStr "") ].

(** [_load_config]: [file] is [None] when the configuration file does
    not exist, and otherwise the JSON object it holds (as
    [_save_config] writes it). [merged.update(saved)] is the union that
    prefers [saved]. *)
Definition _load_config (file : option (gmap string pyval)) : gmap string pyval :=
  match file with
  | Some saved =>
      let merged := DEFAULT_CONFIG in
      saved ∪ merged
  | None => DEFAULT_CONFIG
  end.

Definition _log_moisture (now : Q) (moisture_percent : Q) : M Controller unit :=
  let row := mkMoistureReading now moisture_percent in
  modify (fun c => set_moisture_readings (moisture_readings c ++ [row]) c) ;;;
  emit (InsertMoisture row).

Definition _log_watering (now : Q) (duration_seconds : Q)
    (moisture_before moisture_after : option Q) (mode stop_reason : string)
  : M Controller unit :=
  let row := mkWateringEvent now duration_seconds moisture_before moisture_after
               mode stop_reason in
  modify (fun c => set_watering_events (watering_events c ++ [row]) c) ;;;
  emit (InsertWatering row).

(** [_setup_gpio] has no handler around the GPIO calls: when the relay
    line cannot be set up the constructor raises and no controller
    exists. Otherwise the line is driven to the off level. *)
Definition _setup_gpio (gpio_ok : bool) : M Controller unit :=
  if gpio_ok then gpio_output RELAY_PIN PUMP_OFF_LEVEL
  else lift (Raise RuntimeError).

(** [_get_sensor]: [true] for a handle, [false] for [None]. *)
Definition _get_sensor (env : sensor_env) : M Controller bool :=
  let* present := read sensor in
  if present then ret true
  else
    emit (SensorConnect (se_connect_ok env)) ;;;
    if se_connect_ok env then modify (set_sensor true) ;;; ret true
    else ret false.

Definition _convert_moisture (raw : Z) : Q :=
  let dry_value := 600 in
  let wet_value := 300 in
  let pct := ((inject_Z (dry_value - raw) / inject_Z (dry_value - wet_value)) * 100)%Q in
  let pct := (let m := if Qlt_le_dec pct 100 then pct else 100 in
              if Qlt_le_dec 0 m then m else 0)%Q in
  round1 pct.

Definition _read_moisture (env : sensor_env) : M Controller (option Q) :=
  let* sensor := _get_sensor env in
  if negb sensor then ret None
  else
    emit (SensorRead (se_raw env)) ;;;
    match se_raw env with
    | Some raw => ret (Some (_convert_moisture raw))
    | None => modify (set_sensor false) ;;; ret None
    end.

Definition _update_display (status : string) : M Controller unit :=
  let* d := read display in
  if negb d then ret tt else emit (DisplayShow status).

Definition _set_pump_output (on : bool) : M Controller unit :=
  gpio_output RELAY_PIN (if on then PUMP_ON_LEVEL else PUMP_OFF_LEVEL).

(** The [while] loop of [_pump_worker]. [Some r]: the loop is left with
    [stop_reason = r]; [None]: the ticks given are used up and the
    worker is still polling. *)
Fixpoint poll (mode : string) (started : Q) (run_seconds : Z)
    (stop_reason : string) (ticks : list tick) : M Controller (option string) :=
  match ticks with
  | [] => ret None
  | t :: ticks' =>
      interfere_all (tk_calls t) ;;;
      let* shutdown := read _shutdown in
      if shutdown then ret (Some stop_reason)
      else
        let* stop := read _pump_stop_requested in
        if stop then ret (Some "manual_stop")
        else if Qle_bool (started + inject_Z run_seconds) (tk_now t) then
          ret (Some (if String.eqb mode "manual" then "safety_timeout" else "completed"))
        else poll mode started run_seconds stop_reason ticks'
  end.

(** [_pump_worker]. The result is [None] while the worker is still
    polling, and otherwise the values of the locals [run_seconds] and
    [stop_reason] at its end (the ones it prints). The body of the [try]
    cannot raise, so the [finally] block runs exactly when the loop is
    left. The sum [started_at + run_seconds] of the first locked block is
    the exact one. Python converts [run_seconds] to a float for it, which
    is exact up to [2^53], rounds above, and beyond the float range raises
    [OverflowError] with [running] already set and the relay not yet
    driven: that path is not part of this definition. *)
Definition _pump_worker (mode : string) (requested_seconds : Z)
    (moisture_before : option Q) (env : run_env)
  : M Controller (option (Z * string)) :=
  let* v := config_item "pump_max_runtime_seconds" in
  let* max_auto := lift (py_int v) in
  let* v := config_item "manual_max_runtime_seconds" in
  let* max_manual := lift (py_int v) in
  let max_allowed := if String.eqb mode "manual" then max_manual else max_auto in
  let run_seconds := Z.max 1 (Z.min requested_seconds max_allowed) in
  (let started_at := re_started_at env in
   let p := mkPumpState true mode started_at (started_at + inject_Z run_seconds) "" in
   modify (set_pump p) ;;; emit (PumpBegin p)) ;;;
  _set_pump_output true ;;;
  let started := re_started env in
  let stop_reason := "completed" in
  let* exit := poll mode started run_seconds stop_reason (re_ticks env) in
  match exit with
  | None => ret None
  | Some stop_reason =>
      _set_pump_output false ;;;
      let elapsed := round1 (re_stopped env - started) in
      let* moisture_after := _read_moisture (re_sensor env) in
      _log_watering (re_logged env) elapsed moisture_before moisture_after mode stop_reason ;;;
      (let p := mkPumpState false "idle" 0 0 stop_reason in
       modify (fun c =>
         set_pump_stop_requested false
           (set_manual_toggle_on false
             (set_pump p
               (set_last_water_time (re_last env)
                 (set_last_watered (Some (re_watered env)) c))))) ;;;
       emit (PumpReset p)) ;;;
      ret (Some (run_seconds, stop_reason))
  end.

(** [start_pump]: the thread it starts is recorded in the trace; the
    worker runs when the scheduler picks it. *)
Definition start_pump (mode : string) (seconds : Z) : M Controller (bool * string) :=
  let* running := read (fun c => running (pump c)) in
  if running then ret (false, "Pump already running")
  else
    let* moisture_before := read current_moisture in
    emit (ThreadStart mode seconds moisture_before) ;;;
    ret (true, "Pump started").

Definition stop_pump : M Controller unit :=
  modify (set_pump_stop_requested true).


(** One iteration of the [while] loop of [monitor_loop], up to the
    interruptible sleep; the result is [sleep_seconds]. *)
Definition monitor_cycle (env : cycle_env) : M Controller Z :=
  let* cfg := read config in
  let* moisture := _read_moisture (ce_sensor env) in
  match moisture with
  | Some moisture =>
      modify (set_current_moisture (Some moisture)) ;;;
      _log_moisture (ce_logged env) moisture
  | None => ret tt
  end ;;;
  let status := "WAIT" in
  let* m := read current_moisture in
  let auto_enabled :=
    py_bool (match cfg !! "auto_watering_enabled" with Some v => v | None => PBool true end) in
  let* pump_running := read (fun c => running (pump c)) in
  let* status :=
    match m with
    | Some m =>
        let* low := lift (item cfg "moisture_threshold_low") in
        let* dry := lift (py_lt m low) in
        if dry then ret "DRY"
        else
          let* high := lift (item cfg "moisture_threshold_high") in
          let* wet := lift (py_gt m high) in
          if wet then ret "WET" else ret "OK"
    | None => ret status
    end in
  let status := if pump_running then "PUMP" else status in
  _update_display status ;;;
  match m with
  | Some m =>
      if auto_enabled then
        let now := ce_now env in
        let* last := read last_water_time in
        let* interval := lift (item cfg "min_water_interval_seconds") in
        let* interval_ok := lift (py_ge (now - last) interval) in
        let* idle := read (fun c => negb (running (pump c))) in
        let* low := lift (item cfg "moisture_threshold_low") in
        let* needs_water := lift (py_lt m low) in
        if needs_water && interval_ok && idle then
          let* v := lift (item cfg "watering_duration_seconds") in
          let* seconds := lift (py_int v) in
          start_pump "auto" seconds ;;; ret tt
        else ret tt
      else ret tt
  | None => ret tt
  end ;;;
  let* v := lift (item cfg "sensor_read_interval_seconds") in
  let* interval := lift (py_int v) in
  ret (Z.max 30 interval).

Definition shutdown : M Controller unit :=
  modify (set_shutdown true) ;;;
  stop_pump ;;;
  _set_pump_output false ;;;
  emit GpioCleanup ;;;
  let* d := read display in
  if d then emit DisplayClear else ret tt.

(** The handler of [/api/manual_toggle]; the result is the HTTP status. *)
Definition api_manual_toggle (enabled : bool) : M Controller Z :=
  if enabled then
    modify (set_manual_toggle_on true) ;;;
    let* v := config_item "manual_max_runtime_seconds" in
    let* seconds := lift (py_int v) in
    let* r := start_pump "manual" seconds in
    if negb (fst r) then modify (set_manual_toggle_on false) ;;; ret 409
    else ret 200
  else
    stop_pump ;;;
    modify (set_manual_toggle_on false) ;;;
    ret 200.

(** The constructor: configuration, then the hardware. *)
Definition init (file : option (gmap string pyval)) (gpio_ok display_ok : bool)
  : result Controller :=
  let c := mkController (_load_config file) None None 0 false
             (mkPumpState false "idle" 0 0 "") false false false display_ok
             HIGH [] [] [] in
  match _setup_gpio gpio_ok c with
  | (Ok _, c') => Ok c'
  | (Raise e, _) => Raise e
  end.

End Bonsai.

(** ** [plugins/bonsai_plugin.py]: class [BonsaiPlugin] *)

Module Plugin.

(** The attributes of [BonsaiController], and: whether the hardware
    modules could be imported (the module-level [GPIO], [board], [busio]
    and [Seesaw] are all [None] otherwise), and [gpio_ready]. *)
Record t : Type := mk {
  base : Controller;
  hw_present : bool;
  gpio_ready : bool
}.

#[global] Instance CtrlState_t : CtrlState t :=
  {| ctrl := base;
     upd := fun f p => mk (f (base p)) (hw_present p) (gpio_ready p) |}.

Definition RELAY_PIN : Z := 26.
Definition PUMP_ON_LEVEL : level := LOW.
Definition PUMP_OFF_LEVEL : level := HIGH.

Definition DEFAULT_CONFIG : gmap string pyval :=
  list_to_map
    [ ("moisture_threshold_low", PInt 35);
      ("moisture_threshold_high", PInt 65);
      ("watering_duration_seconds", PInt 60);
      ("min_water_interval_seconds", PInt 28800);
      ("sensor_read_interval_seconds", PInt 300);
      ("pump_max_runtime_seconds", PInt 120);
      ("manual_max_runtime_seconds", PInt 30);
      ("auto_watering_enabled", PBool true);
      ("oled_enabled", PBool true) ].

Definition _load_config (file : option (gmap string pyval)) : gmap string pyval :=
  match file with
  | Some saved =>
      let merged := DEFAULT_CONFIG in
      saved ∪ merged
  | None => DEFAULT_CONFIG
  end.

Definition _log_moisture (now : Q) (moisture_percent : Q) : M t unit :=
  let row := mkMoistureReading now moisture_percent in
  modify (fun c => set_moisture_readings (moisture_readings c ++ [row]) c) ;;;
  emit (InsertMoisture row).

Definition _log_watering (now : Q) (duration_seconds : Q)
    (moisture_before moisture_after : option Q) (mode stop_reason : string)
  : M t unit :=
  let row := mkWateringEvent now duration_seconds moisture_before moisture_after
               mode stop_reason in
  modify (fun c => set_watering_events (watering_events c ++ [row]) c) ;;;
  emit (InsertWatering row).

Definition set_gpio_ready (v : bool) : M t unit :=
  fun p => (Ok tt, mk (base p) (hw_present p) v).

(** [_setup_gpio]: [gpio_ok] tells whether the three GPIO calls
    ([setmode], [setup], [output]) all go through. The trace records the
    write to the relay line when they do. When one of them raises, the
    trace and the field [relay] are left as they were: the calls in front
    of the one that raised are not recorded, and [relay] then holds no
    level that the code has driven. *)
Definition _setup_gpio (gpio_ok : bool) : M t unit :=
  fun p =>
    if negb (hw_present p) then set_gpio_ready false p
    else if gpio_ok then
      (gpio_output RELAY_PIN PUMP_OFF_LEVEL ;;; set_gpio_ready true) p
    else set_gpio_ready false p.

Definition _get_sensor (env : sensor_env) : M t bool :=
  let* present := read sensor in
  if present then ret true
  else
    fun p =>
      if negb (hw_present p) then ret false p
      else
        (emit (SensorConnect (se_connect_ok env)) ;;;
         if se_connect_ok env then modify (set_sensor true) ;;; ret true
         else ret false) p.

Definition _convert_moisture (raw : Z) : Q :=
  let dry_value := 600 in
  let wet_value := 300 in
  let pct := ((inject_Z (dry_value - raw) / inject_Z (dry_value - wet_value)) * 100)%Q in
  let pct := (let m := if Qlt_le_dec pct 100 then pct else 100 in
              if Qlt_le_dec 0 m then m else 0)%Q in
  round1 pct.

Definition _read_moisture (env : sensor_env) : M t (option Q) :=
  let* sensor := _get_sensor env in
  if negb sensor then ret None
  else
    emit (SensorRead (se_raw env)) ;;;
    match se_raw env with
    | Some raw => ret (Some (_convert_moisture raw))
    | None => modify (set_sensor false) ;;; ret None
    end.

Definition _update_display (status : string) : M t unit :=
  let* d := read display in
  if negb d then ret tt
  else
    let* cfg := read config in
    if negb (py_bool (match cfg !! "oled_enabled" with Some v => v | None => PBool true end))
    then ret tt
    else emit (DisplayShow status).

Definition _set_pump_output (on : bool) : M t unit :=
  fun p =>
    if negb (gpio_ready p) || negb (hw_present p) then ret tt p
    else gpio_output RELAY_PIN (if on then PUMP_ON_LEVEL else PUMP_OFF_LEVEL) p.

Fixpoint poll (mode : string) (started : Q) (run_seconds : Z)
    (stop_reason : string) (ticks : list tick) : M t (option string) :=
  match ticks with
  | [] => ret None
  | t :: ticks' =>
      interfere_all (tk_calls t) ;;;
      let* shutdown := read _shutdown in
      if shutdown then ret (Some stop_reason)
      else
        let* stop := read _pump_stop_requested in
        if stop then ret (Some "manual_stop")
        else if Qle_bool (started + inject_Z run_seconds) (tk_now t) then
          ret (Some (if String.eqb mode "manual" then "safety_timeout" else "completed"))
        else poll mode started run_seconds stop_reason ticks'
  end.

(** [_pump_worker] of the plugin: the worker of [bonsai.py] over the
    plugin's [_set_pump_output] and [_read_moisture]. The sum of its first
    locked block is the exact one here too. *)
Definition _pump_worker (mode : string) (requested_seconds : Z)
    (moisture_before : option Q) (env : run_env)
  : M t (option (Z * string)) :=
  let* v := config_item "pump_max_runtime_seconds" in
  let* max_auto := lift (py_int v) in
  let* v := config_item "manual_max_runtime_seconds" in
  let* max_manual := lift (py_int v) in
  let max_allowed := if String.eqb mode "manual" then max_manual else max_auto in
  let run_seconds := Z.max 1 (Z.min requested_seconds max_allowed) in
  (let started_at := re_started_at env in
   let p := mkPumpState true mode started_at (started_at + inject_Z run_seconds) "" in
   modify (set_pump p) ;;; emit (PumpBegin p)) ;;;
  _set_pump_output true ;;;
  let started := re_started env in
  let stop_reason := "completed" in
  let* exit := poll mode started run_seconds stop_reason (re_ticks env) in
  match exit with
  | None => ret None
  | Some stop_reason =>
      _set_pump_output false ;;;
      let elapsed := round1 (re_stopped env - started) in
      let* moisture_after := _read_moisture (re_sensor env) in
      _log_watering (re_logged env) elapsed moisture_before moisture_after mode stop_reason ;;;
      (let p := mkPumpState false "idle" 0 0 stop_reason in
       modify (fun c =>
         set_pump_stop_requested false
           (set_manual_toggle_on false
             (set_pump p
               (set_last_water_time (re_last env)
                 (set_last_watered (Some (re_watered env)) c))))) ;;;
       emit (PumpReset p)) ;;;
      ret (Some (run_seconds, stop_reason))
  end.

Definition start_pump (mode : string) (seconds : Z) : M t (bool * string) :=
  fun p =>
    if negb (gpio_ready p) then
      ret (false, "GPIO not ready; pump control unavailable.") p
    else
      (let* running := read (fun c => running (pump c)) in
       if running then ret (false, "Pump already running")
       else
         let* moisture_before := read current_moisture in
         emit (ThreadStart mode seconds moisture_before) ;;;
         ret (true, "Pump started")) p.

Definition stop_pump : M t unit :=
  modify (set_pump_stop_requested true).


Definition monitor_cycle (env : cycle_env) : M t Z :=
  let* cfg := read config in
  let* moisture := _read_moisture (ce_sensor env) in
  match moisture with
  | Some moisture =>
      modify (set_current_moisture (Some moisture)) ;;;
      _log_moisture (ce_logged env) moisture
  | None => ret tt
  end ;;;
  let status := "WAIT" in
  let* m := read current_moisture in
  let auto_enabled :=
    py_bool (match cfg !! "auto_watering_enabled" with Some v => v | None => PBool true end) in
  let* pump_running := read (fun c => running (pump c)) in
  let* status :=
    match m with
    | Some m =>
        let* low := lift (item cfg "moisture_threshold_low") in
        let* dry := lift (py_lt m low) in
        if dry then ret "DRY"
        else
          let* high := lift (item cfg "moisture_threshold_high") in
          let* wet := lift (py_gt m high) in
          if wet then ret "WET" else ret "OK"
    | None => ret status
    end in
  let status := if pump_running then "PUMP" else status in
  _update_display status ;;;
  match m with
  | Some m =>
      if auto_enabled then
        let now := ce_now env in
        let* last := read last_water_time in
        let* interval := lift (item cfg "min_water_interval_seconds") in
        let* interval_ok := lift (py_ge (now - last) interval) in
        let* idle := read (fun c => negb (running (pump c))) in
        let* low := lift (item cfg "moisture_threshold_low") in
        let* needs_water := lift (py_lt m low) in
        if needs_water && interval_ok && idle then
          let* v := lift (item cfg "watering_duration_seconds") in
          let* seconds := lift (py_int v) in
          start_pump "auto" seconds ;;; ret tt
        else ret tt
      else ret tt
  | None => ret tt
  end ;;;
  let* v := lift (item cfg "sensor_read_interval_seconds") in
  let* interval := lift (py_int v) in
  ret (Z.max 30 interval).

Definition shutdown : M t unit :=
  modify (set_shutdown true) ;;;
  stop_pump ;;;
  _set_pump_output false ;;;
  (fun p => if hw_present p && gpio_ready p then emit GpioCleanup p else ret tt p) ;;;
  let* d := read display in
  if d then emit DisplayClear else ret tt.

Definition api_manual_toggle (enabled : bool) : M t Z :=
  if enabled then
    modify (set_manual_toggle_on true) ;;;
    let* v := config_item "manual_max_runtime_seconds" in
    let* seconds := lift (py_int v) in
    let* r := start_pump "manual" seconds in
    if negb (fst r) then modify (set_manual_toggle_on false) ;;; ret 409
    else ret 200
  else
    stop_pump ;;;
    modify (set_manual_toggle_on false) ;;;
    ret 200.

(** The constructor; it does not raise when the hardware is missing. *)
Definition init (file : option (gmap string pyval)) (hw gpio_ok display_ok : bool) : t :=
  let c := mkController (_load_config file) None None 0 false
             (mkPumpState false "idle" 0 0 "") false false false (hw && display_ok)
             HIGH [] [] [] in
  snd (_setup_gpio gpio_ok (mk c hw false)).

End Plugin.

(** ** Statements and inputs used below *)

(** A controller as the constructor leaves it, with the default
    configuration. *)
Definition fresh : Controller :=
  mkController Bonsai.DEFAULT_CONFIG None None 0 false
    (mkPumpState false "idle" 0 0 "") false false false false HIGH [] []
    [GpioOutput 26 HIGH].

(** The reading of the specification: a key that the persisted file lacks
    takes its default, and a persisted key that the defaults do not know
    is absent from the merged configuration. *)
Definition missing_keys_default
    (load : option (gmap string pyval) -> gmap string pyval)
    (defaults : gmap string pyval) : Prop :=
  forall saved k, saved !! k = None -> load (Some saved) !! k = defaults !! k.

Definition unknown_keys_ignored
    (load : option (gmap string pyval) -> gmap string pyval)
    (defaults : gmap string pyval) : Prop :=
  forall saved k, defaults !! k = None -> load (Some saved) !! k = None.

(** The polling loop as a function of the two events alone: the reason it
    leaves with, if it does, and the events afterwards. *)
Definition is_shutdown_call (c : ext_call) : bool :=
  match c with CallShutdownSet => true | CallStopPump => false end.

Definition is_stop_call (c : ext_call) : bool :=
  match c with CallStopPump => true | CallShutdownSet => false end.

Definition set_events (shutdown stop : bool) (c : Controller) : Controller :=
  set_pump_stop_requested stop (set_shutdown shutdown c).

Fixpoint poll_events (mode : string) (started : Q) (run_seconds : Z)
    (stop_reason : string) (ticks : list tick) (shutdown stop : bool)
  : option string * (bool * bool) :=
  match ticks with
  | [] => (None, (shutdown, stop))
  | t :: ticks' =>
      let shutdown' := shutdown || existsb is_shutdown_call (tk_calls t) in
      let stop' := stop || existsb is_stop_call (tk_calls t) in
      if shutdown' then (Some stop_reason, (shutdown', stop'))
      else if stop' then (Some "manual_stop", (shutdown', stop'))
      else if Qle_bool (started + inject_Z run_seconds) (tk_now t) then
        (Some (if String.eqb mode "manual" then "safety_timeout" else "completed"),
         (shutdown', stop'))
      else poll_events mode started run_seconds stop_reason ticks' shutdown' stop'
  end.

(** A tick at which nothing happens: no call lands and the deadline
    [started + run_seconds] is not reached. *)
Definition quiet (started : Q) (run_seconds : Z) (t : tick) : Prop :=
  tk_calls t = [] /\ Qle_bool (started + inject_Z run_seconds) (tk_now t) = false.

(** The two caps as [_pump_worker] converts them, in its order. *)
Definition run_caps (cfg : gmap string pyval) : result (Z * Z) :=
  match item cfg "pump_max_runtime_seconds" with
  | Raise e => Raise e
  | Ok v =>
      match py_int v with
      | Raise e => Raise e
      | Ok max_auto =>
          match item cfg "manual_max_runtime_seconds" with
          | Raise e => Raise e
          | Ok v =>
              match py_int v with
              | Raise e => Raise e
              | Ok max_manual => Ok (max_auto, max_manual)
              end
          end
      end
  end.

(** [cap mode caps]: the cap that applies to a run of [mode]. *)
Definition cap (mode : string) (caps : Z * Z) : Z :=
  if String.eqb mode "manual" then snd caps else fst caps.

Definition clamp (requested_seconds cap : Z) : Z :=
  Z.max 1 (Z.min requested_seconds cap).

(** The [int]s that Python converts to a float without rounding, and so
    without [OverflowError]: those of magnitude at most [2^53]. *)
Definition float_exact (n : Z) : Prop := Z.abs n <= 2 ^ 53.

(** What one [_read_moisture] does, given whether a handle is cached and
    whether one may be opened: the calls, the result, the handle after. *)
Definition sensor_outcome (present may_connect : bool) (env : sensor_env)
  : list effect * (option Q * bool) :=
  let reading :=
    match se_raw env with
    | Some raw => ([SensorRead (Some raw)], (Some (Bonsai._convert_moisture raw), true))
    | None => ([SensorRead None], (None, false))
    end in
  if present then reading
  else if may_connect then
    if se_connect_ok env then
      (SensorConnect true :: fst reading, snd reading)
    else ([SensorConnect false], (None, false))
  else ([], (None, false)).

(** The state of a run that has begun and is polling, and of a run that
    has finished, as functions of the state [c] it started from. [gpio]
    tells whether [_set_pump_output] reaches the relay. *)
Definition begun_pump (mode : string) (env : run_env) (run_seconds : Z) : PumpState :=
  mkPumpState true mode (re_started_at env)
    (re_started_at env + inject_Z run_seconds) "".

Definition polling_state (gpio : bool) (mode : string) (env : run_env)
    (run_seconds : Z) (shutdown stop : bool) (c : Controller) : Controller :=
  mkController (config c) (current_moisture c) (last_watered c) (last_water_time c)
    (manual_toggle_on c) (begun_pump mode env run_seconds) shutdown stop
    (sensor c) (display c) (if gpio then LOW else relay c)
    (moisture_readings c) (watering_events c)
    (trace c ++ PumpBegin (begun_pump mode env run_seconds)
       :: (if gpio then [GpioOutput 26 LOW] else [])).

Definition logged_event (may_connect : bool) (mode : string)
    (moisture_before : option Q) (env : run_env) (stop_reason : string)
    (c : Controller) : WateringEvent :=
  mkWateringEvent (re_logged env) (round1 (re_stopped env - re_started env))
    moisture_before
    (fst (snd (sensor_outcome (sensor c) may_connect (re_sensor env))))
    mode stop_reason.

Definition finished_state (gpio may_connect : bool) (mode : string)
    (moisture_before : option Q) (env : run_env)
    (run_seconds : Z) (stop_reason : string) (shutdown : bool) (c : Controller)
  : Controller :=
  let so := sensor_outcome (sensor c) may_connect (re_sensor env) in
  let ev := logged_event may_connect mode moisture_before env stop_reason c in
  mkController (config c) (current_moisture c) (Some (re_watered env)) (re_last env)
    false (mkPumpState false "idle" 0 0 stop_reason) shutdown false
    (snd (snd so)) (display c) (if gpio then HIGH else relay c)
    (moisture_readings c) (watering_events c ++ [ev])
    (trace c ++ PumpBegin (begun_pump mode env run_seconds)
       :: (if gpio then [GpioOutput 26 LOW; GpioOutput 26 HIGH] else [])
       ++ fst so
       ++ [InsertWatering ev; PumpReset (mkPumpState false "idle" 0 0 stop_reason)]).

(** ** Statements of the specification, as it words them *)

(** A run whose loop is left at tick [t], after the quiet ticks [pre],
    started from a controller with both events clear. *)
Definition leaves_at (c : Controller) (env : run_env) (run_seconds : Z)
    (pre : list tick) (t : tick) : Prop :=
  _shutdown c = false
  /\ _pump_stop_requested c = false
  /\ (exists post, re_ticks env = pre ++ t :: post)
  /\ Forall (quiet (re_started env) run_seconds) pre.

(** "On shutdown before a stop signal and before the deadline, the event
    that is logged carries [reason]". *)
Definition shutdown_exit_logs (reason : string) : Prop :=
  forall mode requested_seconds moisture_before env c caps pre t,
    run_caps (config c) = Ok caps ->
    leaves_at c env (clamp requested_seconds (cap mode caps)) pre t ->
    In CallShutdownSet (tk_calls t) ->
    exists ev,
      watering_events
        (snd (Bonsai._pump_worker mode requested_seconds moisture_before env c))
      = watering_events c ++ [ev]
      /\ we_stop_reason ev = reason.

(** "Any run receiving a stop signal before its deadline ends with
    [manual_stop]; a run that reaches its deadline without one ends with
    [safety_timeout] when manual and [completed] otherwise". *)
Definition stop_reason_by_order : Prop :=
  forall mode requested_seconds moisture_before env c caps pre t,
    run_caps (config c) = Ok caps ->
    let run_seconds := clamp requested_seconds (cap mode caps) in
    leaves_at c env run_seconds pre t ->
    (In CallStopPump (tk_calls t) ->
     fst (Bonsai._pump_worker mode requested_seconds moisture_before env c)
     = Ok (Some (run_seconds, "manual_stop")))
    /\ (tk_calls t = [] ->
        Qle_bool (re_started env + inject_Z run_seconds) (tk_now t) = true ->
        fst (Bonsai._pump_worker mode requested_seconds moisture_before env c)
        = Ok (Some (run_seconds,
                    if String.eqb mode "manual" then "safety_timeout" else "completed"))).

(** "For every accepted start the run length is within [1] and the cap of
    the mode". *)
Definition run_length_within_cap : Prop :=
  forall mode requested_seconds moisture_before env c caps run_seconds reason,
    run_caps (config c) = Ok caps ->
    fst (Bonsai._pump_worker mode requested_seconds moisture_before env c)
    = Ok (Some (run_seconds, reason)) ->
    run_seconds = Z.max 1 (Z.min requested_seconds (cap mode caps))
    /\ 1 <= run_seconds <= cap mode caps.

(** The effects of one [_read_moisture]. *)
Definition is_sensor_effect (e : effect) : bool :=
  match e with
  | SensorConnect _ | SensorRead _ => true
  | _ => false
  end.

(** The trace [new] extends [old] by a run whose last calls are, in this
    order: the relay driven to the off level, the sensor read, the insert
    of the event [ev], and the locked block that resets the pump. *)
Definition cleanup_in_order (old new : list effect) (ev : WateringEvent)
    (stop_reason : string) : Prop :=
  exists begin sens,
    new = old ++ begin
            ++ GpioOutput 26 HIGH :: sens
            ++ [InsertWatering ev; PumpReset (mkPumpState false "idle" 0 0 stop_reason)]
    /\ forallb is_sensor_effect sens = true
    /\ forallb (fun e => match e with
                         | InsertWatering _ | PumpReset _ => false
                         | _ => true
                         end) begin = true.

(** Two inputs used in the examples: a manual run that is shut down at
    its third tick, and a configuration whose manual cap is zero. *)
Definition shutdown_run : run_env :=
  mkRunEnv 100 100
    [mkTick [] 100; mkTick [] (1001 # 10); mkTick [CallShutdownSet; CallStopPump] (1002 # 10)]
    (1003 # 10) (mkSensorEnv true (Some 450)) (1003 # 10) (1003 # 10) (1003 # 10).

Definition zero_cap : Controller :=
  set_config (<["manual_max_runtime_seconds" := PInt 0]> Bonsai.DEFAULT_CONFIG) fresh.

(** What the end of a run leaves behind, [old] being the controller the
    worker started from. *)
Definition cleaned_up (old new : Controller) (stop_reason : string) : Prop :=
  exists ev,
    cleanup_in_order (trace old) (trace new) ev stop_reason
    /\ watering_events new = watering_events old ++ [ev]
    /\ we_stop_reason ev = stop_reason
    /\ pump new = mkPumpState false "idle" 0 0 stop_reason
    /\ relay new = HIGH
    /\ _pump_stop_requested new = false.

(** Two controllers that agree on every attribute and on both tables;
    the level of the relay line and the trace are left out. *)
Definition same_attributes (c1 c2 : Controller) : Prop :=
  config c1 = config c2
  /\ current_moisture c1 = current_moisture c2
  /\ last_watered c1 = last_watered c2
  /\ last_water_time c1 = last_water_time c2
  /\ manual_toggle_on c1 = manual_toggle_on c2
  /\ pump c1 = pump c2
  /\ _shutdown c1 = _shutdown c2
  /\ _pump_stop_requested c1 = _pump_stop_requested c2
  /\ sensor c1 = sensor c2
  /\ display c1 = display c2
  /\ moisture_readings c1 = moisture_readings c2
  /\ watering_events c1 = watering_events c2.

(** What the monitor loop logs: the cached moisture and the table of
    readings. *)
Definition logged (c : Controller) : option Q * list MoistureReading :=
  (current_moisture c, moisture_readings c).

Definition keeps_log {A : Type} (m : M Controller A) : Prop :=
  forall c, logged (snd (m c)) = logged c.

(** An idle controller on which the stop signal was raised: the handler
    of the manual toggle called with [enabled = false] and no run
    active. *)
Definition stopped_while_idle : Controller :=
  snd (Bonsai.api_manual_toggle false fresh).

(** A manual run of thirty seconds that nobody stops. *)
Definition undisturbed_run : run_env :=
  mkRunEnv 100 100 [mkTick [] 100; mkTick [] 129; mkTick [] 130] 130
    (mkSensorEnv true (Some 450)) 130 130 130.

(** ** Further statements *)

(** The label the monitor loop shows: [PUMP] while a run is active, and
    otherwise the cached moisture against the two thresholds, the low one
    first. *)
Definition status_label (low high : Z) (m : option Q) (pump_running : bool) : string :=
  if pump_running then "PUMP"
  else
    match m with
    | None => "WAIT"
    | Some m =>
        if negb (Qle_bool (inject_Z low) m) then "DRY"
        else if negb (Qle_bool m (inject_Z high)) then "WET"
        else "OK"
    end.

(** The automatic gate of the monitor loop, for the moisture [m] it sees. *)
Definition gate_open (auto : bool) (low interval : Z) (m : Q) (last now : Q)
    (pump_running : bool) : bool :=
  auto && negb (Qle_bool (inject_Z low) m)
  && Qle_bool (inject_Z interval) (now - last)
  && negb pump_running.

(** A configuration whose monitor settings are integers and whose auto
    switch is a boolean. *)
Definition monitor_settings (cfg : gmap string pyval)
    (low high duration interval read_interval : Z) (auto : bool) : Prop :=
  cfg !! "moisture_threshold_low" = Some (PInt low)
  /\ cfg !! "moisture_threshold_high" = Some (PInt high)
  /\ cfg !! "watering_duration_seconds" = Some (PInt duration)
  /\ cfg !! "min_water_interval_seconds" = Some (PInt interval)
  /\ cfg !! "sensor_read_interval_seconds" = Some (PInt read_interval)
  /\ cfg !! "auto_watering_enabled" = Some (PBool auto).

(** The state after a cycle of the monitor loop under such settings. *)
Definition cycle_state (low high duration interval : Z) (auto : bool)
    (env : cycle_env) (c : Controller) : Controller :=
  let so := sensor_outcome (sensor c) true (ce_sensor env) in
  let reading := fst (snd so) in
  let m := match reading with Some m => Some m | None => current_moisture c end in
  let rows := match reading with
              | Some m => [mkMoistureReading (ce_logged env) m]
              | None => []
              end in
  let status := status_label low high m (running (pump c)) in
  let start :=
    match m with
    | Some mv =>
        if gate_open auto low interval mv (last_water_time c) (ce_now env) (running (pump c))
        then [ThreadStart "auto" duration m] else []
    | None => []
    end in
  mkController (config c) m (last_watered c) (last_water_time c) (manual_toggle_on c)
    (pump c) (_shutdown c) (_pump_stop_requested c) (snd (snd so)) (display c) (relay c)
    (moisture_readings c ++ rows) (watering_events c)
    (trace c ++ fst so ++ map InsertMoisture rows
       ++ (if display c then [DisplayShow status] else []) ++ start).

(** The threads started so far, read off the trace. *)
Definition started_threads (l : list effect) : list (string * Z * option Q) :=
  flat_map (fun e => match e with
                     | ThreadStart mode seconds before => [(mode, seconds, before)]
                     | _ => []
                     end) l.

(** ** The request handlers of [bonsai.py] ([create_app]) *)

Module BonsaiApi.

(** [_save_config]: the file holds the whole dictionary afterwards. *)
Definition _save_config (config : gmap string pyval) : option (gmap string pyval) :=
  Some config.

Definition allowed : list string :=
  [ "moisture_threshold_low"; "moisture_threshold_high";
    "watering_duration_seconds"; "min_water_interval_seconds";
    "sensor_read_interval_seconds"; "pump_max_runtime_seconds";
    "manual_max_runtime_seconds"; "auto_watering_enabled" ].

(** The loop of [api_config] over [payload.items()]. *)
Fixpoint merge_allowed (payload : list (string * pyval)) (config : gmap string pyval)
  : gmap string pyval :=
  match payload with
  | [] => config
  | (k, v) :: payload' =>
      merge_allowed payload'
        (if existsb (String.eqb k) allowed then <[k := v]> config else config)
  end.

(** [api_config], for a payload that is a JSON object: the result is the
    configuration that is saved and returned. *)
Definition api_config (payload : list (string * pyval))
  : M Controller (option (gmap string pyval) * gmap string pyval) :=
  modify (fun c => set_config (merge_allowed payload (config c)) c) ;;;
  let* config := read config in
  ret (_save_config config, config).

(** [api_auto_mode]; [payload_enabled] is [payload.get("enabled", True)]. *)
Definition api_auto_mode (payload_enabled : pyval)
  : M Controller (option (gmap string pyval) * bool) :=
  let enabled := py_bool payload_enabled in
  modify (fun c => set_config (<["auto_watering_enabled" := PBool enabled]> (config c)) c) ;;;
  let* config := read config in
  ret (_save_config config, enabled).

(** The [pump] part of the answer of [api_status]. *)
Record pump_status : Type := mkPumpStatus {
  ps_running : bool;
  ps_mode : string;
  ps_remaining_seconds : Z;
  ps_stop_reason : string
}.

(** [api_status], read at clock [now]: [round] is to the nearest integer,
    ties to even. *)
Definition api_status (now : Q) : M Controller pump_status :=
  let* p := read pump in
  let remaining := 0 in
  let remaining :=
    if running p then Z.max 0 (round_half_even (ends_at p - now)) else remaining in
  ret (mkPumpStatus (running p) (mode p) remaining (stop_reason p)).

End BonsaiApi.

(** ** What can happen to a controller, one thing after the other *)

Inductive request : Type :=
| ReqConfig (payload : list (string * pyval))
| ReqAutoMode (enabled : pyval)
| ReqManualToggle (enabled : bool)
| ReqStatus (now : Q)
| MonitorCycle (env : cycle_env)
| WorkerRun (mode : string) (seconds : Z) (moisture_before : option Q) (env : run_env)
| Shutdown.

Definition serve (r : request) (c : Controller) : Controller :=
  match r with
  | ReqConfig payload => snd (BonsaiApi.api_config payload c)
  | ReqAutoMode enabled => snd (BonsaiApi.api_auto_mode enabled c)
  | ReqManualToggle enabled => snd (Bonsai.api_manual_toggle enabled c)
  | ReqStatus now => snd (BonsaiApi.api_status now c)
  | MonitorCycle env => snd (Bonsai.monitor_cycle env c)
  | WorkerRun mode seconds before env => snd (Bonsai._pump_worker mode seconds before env c)
  | Shutdown => snd (Bonsai.shutdown c)
  end.

Definition serve_all (rs : list request) (c : Controller) : Controller :=
  fold_left (fun c r => serve r c) rs c.

(** Every key of the defaults is present. *)
Definition has_default_keys (cfg : gmap string pyval) : Prop :=
  forall k, is_Some (Bonsai.DEFAULT_CONFIG !! k) -> is_Some (cfg !! k).

(** What a cycle of the monitor loop leaves alone. *)
Definition monitor_frame (c : Controller) :=
  (config c, pump c, _shutdown c, _pump_stop_requested c, relay c,
   (last_water_time c, last_watered c, manual_toggle_on c, watering_events c)).

Definition keeps_frame {A : Type} (m : M Controller A) : Prop :=
  forall c, monitor_frame (snd (m c)) = monitor_frame c.

(** A value that cannot be compared with a float. *)
Definition not_a_number (v : pyval) : bool :=
  match v with
  | PNone | PStr _ | PContainer _ => true
  | _ => false
  end.

(** The labels shown so far, read off the trace. *)
Definition shown_statuses (l : list effect) : list string :=
  flat_map (fun e => match e with DisplayShow s => [s] | _ => [] end) l.

(** The sensor answers [raw] in this read: a handle is cached or can be
    opened, and [moisture_read] returns. *)
Definition sensor_answers (c : Controller) (env : sensor_env) (raw : Z) : Prop :=
  sensor c || se_connect_ok env = true /\ se_raw env = Some raw.

(** The value that the items of a JSON object give to [k]: the last
    binding, if any. *)
Fixpoint payload_get (k : string) (payload : list (string * pyval)) : option pyval :=
  match payload with
  | [] => None
  | (k', v) :: payload' =>
      match payload_get k payload' with
      | Some w => Some w
      | None => if String.eqb k' k then Some v else None
      end
  end.

(** [new] is [old] with rows appended. *)
Definition extends {A : Type} (old new : list A) : Prop :=
  exists rows, new = old ++ rows.

Definition tables_extend (c c' : Controller) : Prop :=
  extends (moisture_readings c) (moisture_readings c')
  /\ extends (watering_events c) (watering_events c').

(** ** [set_oled_enabled] of the plugin *)

Module PluginApi.

(** [set_oled_enabled]. [clear] is what the two writes that blank the
    display ([fill], [show]) do: [None] when they go through, [Some text]
    when one of them raises an exception whose text is [text]; the source
    then answers [False] with that text, after the setting was saved.
    Switching on cannot fail: [_update_display] catches what its own
    writes raise. The first component of the result is the configuration
    that is saved, the second the pair that the method returns. *)
Definition set_oled_enabled (enabled : bool) (clear : option string)
  : M Plugin.t (option (gmap string pyval) * (bool * string)) :=
  modify (fun c => set_config (<["oled_enabled" := PBool enabled]> (config c)) c) ;;;
  let* saved := read config in
  let* d := read display in
  if negb d then
    ret (Some saved, (true, "OLED setting saved. No OLED detected right now."))
  else if enabled then
    Plugin._update_display "WAIT" ;;;
    ret (Some saved, (true, "OLED turned ON."))
  else
    match clear with
    | None =>
        emit DisplayClear ;;;
        ret (Some saved, (true, "OLED turned OFF."))
    | Some text =>
        ret (Some saved, (false, String.append "OLED update failed: " text))
    end.

End PluginApi.

(** A computation of the plugin that, with a relay that is not ready,
    leaves it so and starts no thread. *)
Definition starts_nothing {A : Type} (m : M Plugin.t A) : Prop :=
  forall p,
    Plugin.gpio_ready p = false ->
    Plugin.gpio_ready (snd (m p)) = false
    /\ started_threads (trace (Plugin.base (snd (m p))))
       = started_threads (trace (Plugin.base p)).

Definition is_thread_start (e : effect) : bool :=
  match e with ThreadStart _ _ _ => true | _ => false end.

(** * Properties *)

(** ** Sanity checks of the Python primitives *)

Example int_of_str_blanks : int_of_str " 30 " = Some 30.
Proof. reflexivity. Qed.

Example int_of_str_underscore : int_of_str "-1_000" = Some (-1000).
Proof. reflexivity. Qed.

Example int_of_str_rejects :
  int_of_str "3__0" = None /\ int_of_str "abc" = None /\ int_of_str "" = None.
Proof. repeat split; reflexivity. Qed.

Example round1_values :
  round1 (1234 # 1000) = (6 # 5)%Q /\ round1 (25 # 100) = (1 # 5)%Q.
Proof. split; reflexivity. Qed.

Example convert_moisture_values :
  Bonsai._convert_moisture 450 = 50%Q /\ Bonsai._convert_moisture 700 = 0%Q
  /\ Bonsai._convert_moisture 100 = 100%Q /\ Bonsai._convert_moisture 599 = (3 # 10)%Q.
Proof. repeat split; reflexivity. Qed.

(** ** Configuration store *)


Lemma lookup_update (saved merged : gmap string pyval) (k : string) :
  (saved ∪ merged) !! k =
  match saved !! k with Some v => Some v | None => merged !! k end.
Proof.
  rewrite lookup_union.
  destruct (saved !! k) as [v|], (merged !! k) as [w|]; reflexivity.
Qed.

(** C8, as the code has it: the merged configuration holds every persisted
    key with its persisted value, known to the defaults or not, and every
    other key with its default; without a file it is the defaults. *)
Theorem load_config_layers (saved : gmap string pyval) (k : string) :
  Bonsai._load_config (Some saved) !! k =
    match saved !! k with Some v => Some v | None => Bonsai.DEFAULT_CONFIG !! k end
  /\ Plugin._load_config (Some saved) !! k =
    match saved !! k with Some v => Some v | None => Plugin.DEFAULT_CONFIG !! k end
  /\ Bonsai._load_config None = Bonsai.DEFAULT_CONFIG
  /\ Plugin._load_config None = Plugin.DEFAULT_CONFIG.
Proof.
  unfold Bonsai._load_config, Plugin._load_config.
  repeat split; apply lookup_update.
Qed.

Lemma load_config_missing_keys :
  missing_keys_default Bonsai._load_config Bonsai.DEFAULT_CONFIG
  /\ missing_keys_default Plugin._load_config Plugin.DEFAULT_CONFIG.
Proof.
  split; intros saved k Hk.
  - unfold Bonsai._load_config. rewrite lookup_update. now rewrite Hk.
  - unfold Plugin._load_config. rewrite lookup_update. now rewrite Hk.
Qed.

(** C8, counterexample: a persisted key [foo], unknown to the defaults, is
    in the merged configuration. *)
Lemma load_config_keeps_unknown_key :
  ~ (missing_keys_default Bonsai._load_config Bonsai.DEFAULT_CONFIG
     /\ unknown_keys_ignored Bonsai._load_config Bonsai.DEFAULT_CONFIG).
Proof.
  intros [_ H].
  specialize (H {[ "foo" := PInt 1 ]} "foo" eq_refl).
  vm_compute in H. discriminate H.
Qed.

(** ** Starting and stopping the pump *)


Lemma init_fresh : Bonsai.init None true false = Ok fresh.
Proof. reflexivity. Qed.

(** Without the relay line the constructor of [BonsaiController] raises:
    no controller exists whose actuator is not ready. *)
Lemma init_without_gpio file d : Bonsai.init file false d = Raise RuntimeError.
Proof. reflexivity. Qed.

Lemma plugin_init_gpio_ready file hw gpio_ok d :
  Plugin.gpio_ready (Plugin.init file hw gpio_ok d) = hw && gpio_ok
  /\ Plugin.hw_present (Plugin.init file hw gpio_ok d) = hw.
Proof. destruct hw, gpio_ok; split; reflexivity. Qed.


Lemma plugin_start_pump_while_running (p : Plugin.t) mode seconds :
  Plugin.gpio_ready p = true ->
  running (pump (Plugin.base p)) = true ->
  Plugin.start_pump mode seconds p = (Ok (false, "Pump already running"), p).
Proof.
  intros Hg Hrun. unfold Plugin.start_pump, bind, read. cbn.
  now rewrite Hg, Hrun.
Qed.

(** An accepted [start_pump] starts a thread and leaves the [PumpState]
    as it was: [running] is set later, by the worker. *)
Lemma start_pump_accepts_idle (c : Controller) mode seconds :
  running (pump c) = false ->
  Bonsai.start_pump mode seconds c =
    (Ok (true, "Pump started"),
     set_trace (trace c ++ [ThreadStart mode seconds (current_moisture c)])%list c).
Proof.
  intros Hrun. unfold Bonsai.start_pump, bind, read, emit, modify, ret. cbn.
  now rewrite Hrun.
Qed.

(** C1, the race: on a fresh controller two calls of [start_pump], made
    before either worker thread has entered its first locked block, are
    both accepted; two workers are started, and once both have begun two
    runs are polling while the record says one. *)
Theorem start_pump_twice_accepted :
  let '(r1, c1) := Bonsai.start_pump "manual" 30 fresh in
  let '(r2, c2) := Bonsai.start_pump "auto" 60 c1 in
  let env := mkRunEnv 100 100 [] 100 (mkSensorEnv false None) 100 100 100 in
  let '(w1, c3) := Bonsai._pump_worker "manual" 30 None env c2 in
  let '(w2, c4) := Bonsai._pump_worker "auto" 60 None env c3 in
  r1 = Ok (true, "Pump started")
  /\ r2 = Ok (true, "Pump started")
  /\ running (pump c1) = false
  /\ trace c2 = [GpioOutput 26 HIGH; ThreadStart "manual" 30 None; ThreadStart "auto" 60 None]
  /\ w1 = Ok None /\ w2 = Ok None
  /\ trace c4
     = (trace c2 ++
        [PumpBegin (mkPumpState true "manual" 100 130 ""); GpioOutput 26 LOW;
         PumpBegin (mkPumpState true "auto" 100 160 ""); GpioOutput 26 LOW])%list.
Proof. vm_compute. repeat split; reflexivity. Qed.

(** C2. With [gpio_ready] false, [start_pump] of the plugin returns the
    refusal "GPIO not ready; pump control unavailable." and
    [_set_pump_output] returns; neither changes the state: the relay line
    is not driven and no thread is started. *)
Theorem not_ready_fails_closed (p : Plugin.t) (mode : string) (seconds : Z) (on : bool) :
  Plugin.gpio_ready p = false ->
  Plugin.start_pump mode seconds p
    = (Ok (false, "GPIO not ready; pump control unavailable."), p)
  /\ Plugin._set_pump_output on p = (Ok tt, p).
Proof.
  intros Hg. unfold Plugin.start_pump, Plugin._set_pump_output, ret.
  now rewrite Hg.
Qed.

Lemma not_ready_fails_closed_witness :
  let p := Plugin.init None true false false in
  Plugin.gpio_ready p = false
  /\ Plugin.start_pump "manual" 30 p
       = (Ok (false, "GPIO not ready; pump control unavailable."), p)
  /\ Plugin._set_pump_output true p = (Ok tt, p).
Proof.
  split; [reflexivity | apply (not_ready_fails_closed _ "manual" 30 true); reflexivity].
Defined.

(** ** The polling loop *)

Lemma set_events_id (c : Controller) :
  set_events (_shutdown c) (_pump_stop_requested c) c = c.
Proof. destruct c; reflexivity. Qed.

Lemma set_events_twice a b a' b' (c : Controller) :
  set_events a' b' (set_events a b c) = set_events a' b' c.
Proof. destruct c; reflexivity. Qed.

Lemma interfere_all_events (cs : list ext_call) (c : Controller) :
  interfere_all cs c =
  (Ok tt, set_events (_shutdown c || existsb is_shutdown_call cs)
                     (_pump_stop_requested c || existsb is_stop_call cs) c).
Proof.
  revert c. induction cs as [|x cs IH]; intros c.
  - cbn. rewrite !orb_false_r. now rewrite set_events_id.
  - cbn [interfere_all]. unfold bind.
    destruct x; cbn [interfere modify upd CtrlState_Controller];
      rewrite IH; destruct c; cbn; unfold set_events; cbn;
      rewrite ?orb_true_r, ?orb_false_r, ?orb_true_l, ?orb_false_l; reflexivity.
Qed.

Lemma plugin_interfere_all_events (cs : list ext_call) (p : Plugin.t) :
  interfere_all cs p =
  (Ok tt, upd (set_events (_shutdown (Plugin.base p) || existsb is_shutdown_call cs)
                 (_pump_stop_requested (Plugin.base p) || existsb is_stop_call cs)) p).
Proof.
  revert p. induction cs as [|x cs IH]; intros p.
  - cbn. rewrite !orb_false_r. rewrite set_events_id. now destruct p.
  - cbn [interfere_all]. unfold bind.
    destruct x; cbn [interfere modify upd Plugin.CtrlState_t];
      rewrite IH; destruct p as [c hw g]; destruct c; cbn; unfold set_events; cbn;
      rewrite ?orb_true_r, ?orb_false_r, ?orb_true_l, ?orb_false_l; reflexivity.
Qed.

Lemma poll_events_eq mode started run_seconds stop_reason ticks (c : Controller) :
  Bonsai.poll mode started run_seconds stop_reason ticks c =
  let '(r, (shutdown, stop)) :=
    poll_events mode started run_seconds stop_reason ticks
      (_shutdown c) (_pump_stop_requested c) in
  (Ok r, set_events shutdown stop c).
Proof.
  revert c. induction ticks as [|t ticks IH]; intros c.
  - cbn. now rewrite set_events_id.
  - cbn [Bonsai.poll poll_events]. unfold bind at 1.
    rewrite interfere_all_events.
    set (sd := _shutdown c || existsb is_shutdown_call (tk_calls t)).
    set (st := _pump_stop_requested c || existsb is_stop_call (tk_calls t)).
    assert (Hsd : _shutdown (set_events sd st c) = sd) by (destruct c; reflexivity).
    assert (Hst : _pump_stop_requested (set_events sd st c) = st) by (destruct c; reflexivity).
    clearbody sd st.
    unfold bind, read, ret. cbn [ctrl CtrlState_Controller]. rewrite Hsd.
    destruct sd; [reflexivity|]. cbv beta. rewrite Hst.
    destruct st; [reflexivity|].
    destruct (Qle_bool _ _); [reflexivity|].
    rewrite IH, Hsd, Hst.
    destruct (poll_events _ _ _ _ _ _ _) as [r [a b]].
    now rewrite set_events_twice.
Qed.

Lemma plugin_poll_events_eq mode started run_seconds stop_reason ticks (p : Plugin.t) :
  Plugin.poll mode started run_seconds stop_reason ticks p =
  let '(r, (shutdown, stop)) :=
    poll_events mode started run_seconds stop_reason ticks
      (_shutdown (Plugin.base p)) (_pump_stop_requested (Plugin.base p)) in
  (Ok r, upd (set_events shutdown stop) p).
Proof.
  revert p. induction ticks as [|t ticks IH]; intros p.
  - cbn. rewrite set_events_id. now destruct p.
  - cbn [Plugin.poll poll_events]. unfold bind at 1.
    rewrite plugin_interfere_all_events.
    set (sd := _shutdown (Plugin.base p) || existsb is_shutdown_call (tk_calls t)).
    set (st := _pump_stop_requested (Plugin.base p) || existsb is_stop_call (tk_calls t)).
    assert (Hsd : _shutdown (Plugin.base (upd (set_events sd st) p)) = sd)
      by (destruct p as [c hw g]; destruct c; reflexivity).
    assert (Hst : _pump_stop_requested (Plugin.base (upd (set_events sd st) p)) = st)
      by (destruct p as [c hw g]; destruct c; reflexivity).
    clearbody sd st.
    unfold bind, read, ret. cbn [ctrl Plugin.CtrlState_t]. rewrite Hsd.
    destruct sd; [reflexivity|]. cbv beta. rewrite Hst.
    destruct st; [reflexivity|].
    destruct (Qle_bool _ _); [reflexivity|].
    rewrite IH, Hsd, Hst.
    destruct (poll_events _ _ _ _ _ _ _) as [r [a b]].
    cbn. now rewrite set_events_twice.
Qed.

(** ** The pump worker, in closed form *)

Lemma read_moisture_outcome (env : sensor_env) (c : Controller) :
  Bonsai._read_moisture env c =
  let so := sensor_outcome (sensor c) true env in
  (Ok (fst (snd so)), set_sensor (snd (snd so)) (set_trace (trace c ++ fst so) c)).
Proof.
  unfold Bonsai._read_moisture, Bonsai._get_sensor, sensor_outcome,
    bind, read, ret, emit, modify.
  destruct c as [cfg cm lw lwt mt pu sd st se di rl mr we tr].
  destruct env as [ok raw]. cbn.
  destruct se; cbn.
  - destruct raw; cbn; reflexivity.
  - destruct ok; cbn; [|reflexivity].
    destruct raw; cbn; rewrite <- ?app_assoc; reflexivity.
Qed.

Lemma pump_worker_closed_form mode requested_seconds moisture_before env (c : Controller) :
  Bonsai._pump_worker mode requested_seconds moisture_before env c =
  match run_caps (config c) with
  | Raise e => (Raise e, c)
  | Ok caps =>
      let run_seconds := clamp requested_seconds (cap mode caps) in
      match poll_events mode (re_started env) run_seconds "completed" (re_ticks env)
              (_shutdown c) (_pump_stop_requested c) with
      | (None, (shutdown, stop)) =>
          (Ok None, polling_state true mode env run_seconds shutdown stop c)
      | (Some stop_reason, (shutdown, _)) =>
          (Ok (Some (run_seconds, stop_reason)),
           finished_state true true mode moisture_before env run_seconds stop_reason shutdown c)
      end
  end.
Proof.
  unfold Bonsai._pump_worker, run_caps, config_item.
  unfold bind at 1. unfold bind at 1. unfold read at 1. cbn [ctrl CtrlState_Controller].
  unfold lift at 1.
  destruct (item (config c) "pump_max_runtime_seconds") as [va|e]; [|reflexivity].
  unfold bind at 1. unfold lift at 1.
  destruct (py_int va) as [max_auto|e]; [|reflexivity].
  unfold bind at 1. unfold bind at 1. unfold read at 1. cbn [ctrl CtrlState_Controller].
  unfold lift at 1.
  destruct (item (config c) "manual_max_runtime_seconds") as [vm|e]; [|reflexivity].
  unfold bind at 1. unfold lift at 1.
  destruct (py_int vm) as [max_manual|e]; [|reflexivity].
  change (1 `max` (requested_seconds `min` (if (mode =? "manual")%string then max_manual else max_auto)))
    with (clamp requested_seconds (cap mode (max_auto, max_manual))).
  set (run_seconds := clamp requested_seconds (cap mode (max_auto, max_manual))).
  unfold bind at 1. unfold bind at 1.
  unfold modify at 1, emit at 1, modify at 1. cbn [upd CtrlState_Controller].
  unfold bind at 1.
  unfold Bonsai._set_pump_output at 1, gpio_output, bind at 1, modify at 1, emit at 1, modify at 1.
  cbn [upd CtrlState_Controller].
  unfold bind at 1. rewrite poll_events_eq.
  destruct c as [cfg cm lw lwt mt pu sd0 st0 se di rl mr we tr].
  cbv [_shutdown _pump_stop_requested set_trace set_relay set_pump trace config
       current_moisture last_watered last_water_time manual_toggle_on pump sensor
       display relay moisture_readings watering_events].
  destruct (poll_events _ _ _ _ _ _ _) as [[reason|] [sd st]].
  - unfold bind at 1.
    unfold Bonsai._set_pump_output at 1, gpio_output, bind at 1, modify at 1, emit at 1, modify at 1.
    cbn [upd CtrlState_Controller].
    unfold bind at 1. rewrite read_moisture_outcome.
    unfold Bonsai._log_watering, bind, modify, emit, modify, ret.
    cbn [upd CtrlState_Controller].
    unfold finished_state, logged_event, set_events, begun_pump.
    cbv [_shutdown _pump_stop_requested set_trace set_relay set_pump trace config
       current_moisture last_watered last_water_time manual_toggle_on pump sensor
       display relay moisture_readings watering_events set_sensor set_watering_events
       set_pump_stop_requested set_manual_toggle_on set_last_water_time set_last_watered
       set_shutdown].
    rewrite <- !app_assoc. reflexivity.
  - unfold ret, polling_state, set_events, begun_pump.
    cbv [_shutdown _pump_stop_requested set_trace set_relay set_pump trace config
       current_moisture last_watered last_water_time manual_toggle_on pump sensor
       display relay moisture_readings watering_events set_sensor set_watering_events
       set_pump_stop_requested set_manual_toggle_on set_last_water_time set_last_watered
       set_shutdown].
    rewrite <- !app_assoc. reflexivity.
Qed.

Lemma plugin_read_moisture_outcome (env : sensor_env) (p : Plugin.t) :
  Plugin._read_moisture env p =
  let so := sensor_outcome (sensor (Plugin.base p)) (Plugin.hw_present p) env in
  (Ok (fst (snd so)),
   upd (fun c => set_sensor (snd (snd so)) (set_trace (trace c ++ fst so) c)) p).
Proof.
  unfold Plugin._read_moisture, Plugin._get_sensor, sensor_outcome,
    bind, read, ret, emit, modify.
  destruct p as [c hw g].
  destruct c as [cfg cm lw lwt mt pu sd st se di rl mr we tr].
  destruct env as [ok raw]. cbn.
  destruct se; cbn.
  - destruct raw; cbn; reflexivity.
  - destruct hw; cbn; [|rewrite app_nil_r; reflexivity].
    destruct ok; cbn; [|reflexivity].
    destruct raw; cbn; rewrite <- ?app_assoc; reflexivity.
Qed.

Lemma plugin_pump_worker_closed_form mode requested_seconds moisture_before env
    (p : Plugin.t) :
  Plugin._pump_worker mode requested_seconds moisture_before env p =
  let c := Plugin.base p in
  let gpio := Plugin.gpio_ready p && Plugin.hw_present p in
  match run_caps (config c) with
  | Raise e => (Raise e, p)
  | Ok caps =>
      let run_seconds := clamp requested_seconds (cap mode caps) in
      match poll_events mode (re_started env) run_seconds "completed" (re_ticks env)
              (_shutdown c) (_pump_stop_requested c) with
      | (None, (shutdown, stop)) =>
          (Ok None,
           upd (fun c => polling_state gpio mode env run_seconds shutdown stop c) p)
      | (Some stop_reason, (shutdown, _)) =>
          (Ok (Some (run_seconds, stop_reason)),
           upd (fun c => finished_state gpio (Plugin.hw_present p) mode moisture_before
                           env run_seconds stop_reason shutdown c) p)
      end
  end.
Proof.
  unfold Plugin._pump_worker, run_caps, config_item.
  unfold bind at 1. unfold bind at 1. unfold read at 1. cbn [ctrl Plugin.CtrlState_t].
  unfold lift at 1.
  destruct (item (config (Plugin.base p)) "pump_max_runtime_seconds") as [va|e]; [|reflexivity].
  unfold bind at 1. unfold lift at 1.
  destruct (py_int va) as [max_auto|e]; [|reflexivity].
  unfold bind at 1. unfold bind at 1. unfold read at 1. cbn [ctrl Plugin.CtrlState_t].
  unfold lift at 1.
  destruct (item (config (Plugin.base p)) "manual_max_runtime_seconds") as [vm|e]; [|reflexivity].
  unfold bind at 1. unfold lift at 1.
  destruct (py_int vm) as [max_manual|e]; [|reflexivity].
  change (1 `max` (requested_seconds `min` (if (mode =? "manual")%string then max_manual else max_auto)))
    with (clamp requested_seconds (cap mode (max_auto, max_manual))).
  set (run_seconds := clamp requested_seconds (cap mode (max_auto, max_manual))).
  destruct p as [c hw g].
  destruct c as [cfg cm lw lwt mt pu sd0 st0 se di rl mr we tr].
  destruct g, hw;
  (cbv beta iota delta [bind modify emit ret gpio_output upd Plugin.CtrlState_t
       Plugin._set_pump_output Plugin.gpio_ready Plugin.hw_present Plugin.base
       negb orb andb];
   rewrite plugin_poll_events_eq;
   cbv beta iota delta [Plugin.gpio_ready Plugin.hw_present Plugin.base
       _shutdown _pump_stop_requested set_trace set_relay set_pump trace config
       current_moisture last_watered last_water_time manual_toggle_on pump sensor
       display relay moisture_readings watering_events];
   destruct (poll_events _ _ _ _ _ _ _) as [[reason|] [sd st]];
   cbv beta iota delta [upd Plugin.CtrlState_t Plugin.gpio_ready Plugin.hw_present
       Plugin.base negb orb andb];
   [ rewrite plugin_read_moisture_outcome | ];
   cbv beta iota zeta delta [Plugin._log_watering bind modify emit ret
       finished_state polling_state logged_event set_events begun_pump
       Plugin.gpio_ready Plugin.hw_present Plugin.base upd Plugin.CtrlState_t
       _shutdown _pump_stop_requested set_trace set_relay set_pump trace config
       current_moisture last_watered last_water_time manual_toggle_on pump sensor
       display relay moisture_readings watering_events set_sensor set_watering_events
       set_pump_stop_requested set_manual_toggle_on set_last_water_time set_last_watered
       set_shutdown];
   rewrite <- ?app_assoc; reflexivity).
Qed.

(** ** Which tick ends the loop *)

Lemma poll_events_quiet mode started run_seconds stop_reason pre rest :
  Forall (quiet started run_seconds) pre ->
  poll_events mode started run_seconds stop_reason (pre ++ rest) false false
  = poll_events mode started run_seconds stop_reason rest false false.
Proof.
  induction 1 as [|t pre [Hcalls Hnow] _ IH]; [reflexivity|].
  cbn [app poll_events]. rewrite Hcalls, Hnow. cbn. exact IH.
Qed.

Lemma existsb_shutdown_In cs :
  existsb is_shutdown_call cs = true <-> In CallShutdownSet cs.
Proof.
  rewrite existsb_exists. split.
  - intros [x [Hin Hx]]. now destruct x.
  - intros Hin. now exists CallShutdownSet.
Qed.

Lemma existsb_stop_In cs :
  existsb is_stop_call cs = true <-> In CallStopPump cs.
Proof.
  rewrite existsb_exists. split.
  - intros [x [Hin Hx]]. now destruct x.
  - intros Hin. now exists CallStopPump.
Qed.

Lemma poll_events_shutdown mode started run_seconds stop_reason t post :
  In CallShutdownSet (tk_calls t) ->
  poll_events mode started run_seconds stop_reason (t :: post) false false
  = (Some stop_reason, (true, existsb is_stop_call (tk_calls t))).
Proof.
  intros Hin. apply existsb_shutdown_In in Hin.
  cbn [poll_events]. now rewrite Hin.
Qed.

Lemma poll_events_stop mode started run_seconds stop_reason t post :
  ~ In CallShutdownSet (tk_calls t) ->
  In CallStopPump (tk_calls t) ->
  poll_events mode started run_seconds stop_reason (t :: post) false false
  = (Some "manual_stop", (false, true)).
Proof.
  intros Hno Hin. apply existsb_stop_In in Hin.
  rewrite <- existsb_shutdown_In in Hno. apply not_true_is_false in Hno.
  cbn [poll_events]. now rewrite Hno, Hin.
Qed.

Lemma poll_events_deadline mode started run_seconds stop_reason t post :
  tk_calls t = [] ->
  Qle_bool (started + inject_Z run_seconds) (tk_now t) = true ->
  poll_events mode started run_seconds stop_reason (t :: post) false false
  = (Some (if String.eqb mode "manual" then "safety_timeout" else "completed"),
     (false, false)).
Proof.
  intros Hcalls Hnow. cbn [poll_events]. now rewrite Hcalls, Hnow.
Qed.

Lemma leaves_at_poll c env run_seconds pre t mode stop_reason :
  leaves_at c env run_seconds pre t ->
  exists post,
    poll_events mode (re_started env) run_seconds stop_reason (re_ticks env)
      (_shutdown c) (_pump_stop_requested c)
    = poll_events mode (re_started env) run_seconds stop_reason (t :: post) false false.
Proof.
  intros (-> & -> & [post ->] & Hq). exists post.
  now apply poll_events_quiet.
Qed.

(** ** Shutdown during a run *)

Lemma shutdown_exit_logs_completed : shutdown_exit_logs "completed".
Proof.
  intros mode req mb env c caps pre t Hcaps Hl Hin.
  rewrite pump_worker_closed_form, Hcaps. cbv zeta.
  destruct (leaves_at_poll c env _ pre t mode "completed" Hl) as [post ->].
  rewrite poll_events_shutdown by exact Hin.
  cbn [snd]. unfold finished_state. cbn [watering_events].
  eexists. split; [reflexivity|]. reflexivity.
Qed.

(** C5, counterexample: on the run [shutdown_run] the event that is
    logged carries [completed], not the empty string. *)
Lemma shutdown_exit_not_empty : ~ shutdown_exit_logs "".
Proof.
  intros H.
  destruct (H "manual" 30 None shutdown_run fresh (120, 30)
              [mkTick [] 100; mkTick [] (1001 # 10)]
              (mkTick [CallShutdownSet; CallStopPump] (1002 # 10))) as (ev & Hev & Hr).
  - reflexivity.
  - repeat split; try reflexivity.
    + now eexists.
    + repeat constructor.
  - now left.
  - vm_compute in Hev. injection Hev as <-. discriminate Hr.
Qed.

(** C5, as the code has it: when global shutdown ends the polling loop
    before a stop signal is observed and before the deadline, the run
    finishes with the initial value [completed] of the local
    [stop_reason]; the event that is logged and the record of the pump
    carry [completed]. *)
Theorem shutdown_exit_reason mode requested_seconds moisture_before env (c : Controller)
    caps pre t :
  run_caps (config c) = Ok caps ->
  leaves_at c env (clamp requested_seconds (cap mode caps)) pre t ->
  In CallShutdownSet (tk_calls t) ->
  exists c' ev,
    Bonsai._pump_worker mode requested_seconds moisture_before env c
    = (Ok (Some (clamp requested_seconds (cap mode caps), "completed")), c')
    /\ watering_events c' = watering_events c ++ [ev]
    /\ we_stop_reason ev = "completed"
    /\ stop_reason (pump c') = "completed".
Proof.
  intros Hcaps Hl Hin.
  rewrite pump_worker_closed_form, Hcaps. cbv zeta.
  destruct (leaves_at_poll c env _ pre t mode "completed" Hl) as [post ->].
  rewrite poll_events_shutdown by exact Hin.
  eexists. eexists. split; [reflexivity|].
  unfold finished_state. cbn [watering_events pump stop_reason].
  split; [reflexivity|]. split; reflexivity.
Qed.

Lemma shutdown_exit_reason_witness :
  exists c' ev,
    Bonsai._pump_worker "manual" 30 None shutdown_run fresh
    = (Ok (Some (clamp 30 (cap "manual" (120, 30)), "completed")), c')
    /\ watering_events c' = watering_events fresh ++ [ev]
    /\ we_stop_reason ev = "completed"
    /\ stop_reason (pump c') = "completed".
Proof.
  apply (shutdown_exit_reason "manual" 30 None shutdown_run fresh (120, 30)
           [mkTick [] 100; mkTick [] (1001 # 10)]
           (mkTick [CallShutdownSet; CallStopPump] (1002 # 10))).
  - reflexivity.
  - repeat split; try reflexivity.
    + now eexists.
    + repeat constructor.
  - now left.
Defined.

(** ** The reason a run ends with *)

(** C7, counterexample: [shutdown()] sets the shutdown event and then
    raises the stop signal; the manual run [shutdown_run] receives that
    stop signal before its deadline and ends with [completed]. *)
Lemma stop_signal_after_shutdown_not_manual_stop : ~ stop_reason_by_order.
Proof.
  intros H.
  destruct (H "manual" 30 None shutdown_run fresh (120, 30)
              [mkTick [] 100; mkTick [] (1001 # 10)]
              (mkTick [CallShutdownSet; CallStopPump] (1002 # 10))) as [Hstop _].
  - reflexivity.
  - repeat split; try reflexivity.
    + now eexists.
    + repeat constructor.
  - specialize (Hstop (or_intror (or_introl eq_refl))).
    vm_compute in Hstop. discriminate Hstop.
Qed.

(** C7, as the code has it: each tick tests the shutdown event, then the
    stop signal, then the deadline. At the first tick that is not quiet,
    if the shutdown event is not set: a stop signal gives [manual_stop],
    whatever the clock says; and without a call, a clock at or past
    [started + run_seconds] gives [safety_timeout] to a manual run and
    [completed] to any other. *)
Theorem stop_reason_by_tick mode requested_seconds moisture_before env (c : Controller)
    caps pre t :
  run_caps (config c) = Ok caps ->
  leaves_at c env (clamp requested_seconds (cap mode caps)) pre t ->
  ~ In CallShutdownSet (tk_calls t) ->
  (In CallStopPump (tk_calls t) ->
   fst (Bonsai._pump_worker mode requested_seconds moisture_before env c)
   = Ok (Some (clamp requested_seconds (cap mode caps), "manual_stop")))
  /\ (tk_calls t = [] ->
      Qle_bool (re_started env + inject_Z (clamp requested_seconds (cap mode caps)))
        (tk_now t) = true ->
      fst (Bonsai._pump_worker mode requested_seconds moisture_before env c)
      = Ok (Some (clamp requested_seconds (cap mode caps),
                  if String.eqb mode "manual" then "safety_timeout" else "completed"))).
Proof.
  intros Hcaps Hl Hno.
  rewrite pump_worker_closed_form, Hcaps. cbv zeta.
  destruct (leaves_at_poll c env _ pre t mode "completed" Hl) as [post ->].
  split.
  - intros Hin. now rewrite poll_events_stop.
  - intros Hcalls Hnow. now rewrite poll_events_deadline.
Qed.

Lemma stop_reason_by_tick_witness :
  let env := mkRunEnv 100 100
               [mkTick [] 100; mkTick [] 129; mkTick [] 130] 130
               (mkSensorEnv true (Some 450)) 130 130 130 in
  (In CallStopPump [] ->
   fst (Bonsai._pump_worker "manual" 30 None env fresh)
   = Ok (Some (clamp 30 (cap "manual" (120, 30)), "manual_stop")))
  /\ (@nil ext_call = [] ->
      Qle_bool (100 + inject_Z (clamp 30 (cap "manual" (120, 30)))) 130 = true ->
      fst (Bonsai._pump_worker "manual" 30 None env fresh)
      = Ok (Some (clamp 30 (cap "manual" (120, 30)),
                  if String.eqb "manual" "manual" then "safety_timeout" else "completed"))).
Proof.
  intros env.
  apply (stop_reason_by_tick "manual" 30 None env fresh (120, 30)
           [mkTick [] 100; mkTick [] 129] (mkTick [] 130)).
  - reflexivity.
  - repeat split; try reflexivity.
    + now eexists.
    + repeat constructor.
  - intros [].
Defined.

Example manual_run_times_out :
  fst (Bonsai._pump_worker "manual" 30 None
         (mkRunEnv 100 100 [mkTick [] 100; mkTick [] 129; mkTick [] 130] 130
            (mkSensorEnv true (Some 450)) 130 130 130) fresh)
  = Ok (Some (30, "safety_timeout")).
Proof. reflexivity. Qed.

Example auto_run_completes :
  fst (Bonsai._pump_worker "auto" 60 (Some 30%Q)
         (mkRunEnv 100 100 [mkTick [] 100; mkTick [] 159; mkTick [] (1601 # 10)] 161
            (mkSensorEnv true (Some 450)) 161 161 161) fresh)
  = Ok (Some (60, "completed")).
Proof. reflexivity. Qed.

Example stop_wins_over_deadline :
  fst (Bonsai._pump_worker "manual" 30 None
         (mkRunEnv 100 100 [mkTick [] 100; mkTick [CallStopPump] 131] 131
            (mkSensorEnv true (Some 450)) 131 131 131) fresh)
  = Ok (Some (30, "manual_stop")).
Proof. reflexivity. Qed.

(** ** The cleanup block *)

Lemma sensor_outcome_effects present may_connect env :
  forallb is_sensor_effect (fst (sensor_outcome present may_connect env)) = true.
Proof.
  unfold sensor_outcome.
  destruct present, may_connect, (se_connect_ok env), (se_raw env); reflexivity.
Qed.

Lemma finished_state_cleaned_up hw mode moisture_before env run_seconds stop_reason
    shutdown (c : Controller) :
  cleaned_up c
    (finished_state true hw mode moisture_before env run_seconds stop_reason shutdown c)
    stop_reason.
Proof.
  exists (logged_event hw mode moisture_before env stop_reason c).
  unfold finished_state. cbn [trace watering_events pump relay _pump_stop_requested].
  repeat split.
  exists [PumpBegin (begun_pump mode env run_seconds); GpioOutput 26 LOW],
         (fst (sensor_outcome (sensor c) hw (re_sensor env))).
  split; [reflexivity|]. split; [apply sensor_outcome_effects | reflexivity].
Qed.

(** C3. A run that has ended, of either variant and whatever ended its
    loop, has extended the trace by calls that end with: the relay driven
    to its off level, then the sensor read, then the insert of the
    watering event, then the locked block that resets the pump record to
    idle. (For the plugin, the relay is reached when [gpio_ready] holds,
    as it does for every run that [start_pump] accepts.) *)
Theorem cleanup_order (c : Controller) (p : Plugin.t) mode requested_seconds
    moisture_before env :
  Plugin.gpio_ready p = true ->
  Plugin.hw_present p = true ->
  (forall run_seconds stop_reason c',
     Bonsai._pump_worker mode requested_seconds moisture_before env c
     = (Ok (Some (run_seconds, stop_reason)), c') ->
     cleaned_up c c' stop_reason)
  /\ (forall run_seconds stop_reason p',
        Plugin._pump_worker mode requested_seconds moisture_before env p
        = (Ok (Some (run_seconds, stop_reason)), p') ->
        cleaned_up (Plugin.base p) (Plugin.base p') stop_reason).
Proof.
  intros Hg Hhw. split.
  - intros rs reason c'. rewrite pump_worker_closed_form.
    destruct (run_caps (config c)) as [caps|e]; [|discriminate].
    cbv zeta. destruct (poll_events _ _ _ _ _ _ _) as [[r|] [sd st]]; [|discriminate].
    intros [= <- <- <-]. apply finished_state_cleaned_up.
  - intros rs reason p'. rewrite plugin_pump_worker_closed_form.
    cbv zeta. rewrite Hg, Hhw. cbn [andb].
    destruct (run_caps (config (Plugin.base p))) as [caps|e]; [|discriminate].
    destruct (poll_events _ _ _ _ _ _ _) as [[r|] [sd st]]; [|discriminate].
    intros [= <- <- <-]. destruct p as [c0 hw g]. cbn [upd Plugin.CtrlState_t Plugin.base].
    apply finished_state_cleaned_up.
Qed.

Lemma cleanup_order_witness :
  cleaned_up fresh (snd (Bonsai._pump_worker "manual" 30 None shutdown_run fresh)) "completed"
  /\ cleaned_up fresh
       (Plugin.base (snd (Plugin._pump_worker "manual" 30 None shutdown_run
                            (Plugin.mk fresh true true)))) "completed".
Proof.
  destruct (cleanup_order fresh (Plugin.mk fresh true true) "manual" 30 None shutdown_run
              eq_refl eq_refl) as [HB HP].
  split.
  - refine (HB 30 "completed" _ _). vm_compute. reflexivity.
  - refine (HP 30 "completed" _ _). vm_compute. reflexivity.
Defined.

Example cleanup_trace_on_shutdown :
  trace (snd (Bonsai._pump_worker "manual" 30 None shutdown_run fresh))
  = [GpioOutput 26 HIGH;
     PumpBegin (mkPumpState true "manual" 100 130 "");
     GpioOutput 26 LOW;
     GpioOutput 26 HIGH;
     SensorConnect true;
     SensorRead (Some 450);
     InsertWatering (mkWateringEvent (1003 # 10) (3 # 10) None (Some 50%Q) "manual" "completed");
     PumpReset (mkPumpState false "idle" 0 0 "completed")].
Proof. reflexivity. Qed.

(** ** The run length *)

Lemma run_caps_lookup (cfg : gmap string pyval) va vm max_auto max_manual :
  cfg !! "pump_max_runtime_seconds" = Some va -> py_int va = Ok max_auto ->
  cfg !! "manual_max_runtime_seconds" = Some vm -> py_int vm = Ok max_manual ->
  run_caps cfg = Ok (max_auto, max_manual).
Proof.
  intros Ha Hia Hm Him. unfold run_caps, item. now rewrite Ha, Hia, Hm, Him.
Qed.

(** C6, counterexample: with [manual_max_runtime_seconds] set to zero a
    manual run gets a run length of one second, above its cap. *)
Lemma run_length_above_zero_cap : ~ run_length_within_cap.
Proof.
  intros H.
  assert (Hcaps : run_caps (config zero_cap) = Ok (120, 0)) by (vm_compute; reflexivity).
  assert (Hrun : fst (Bonsai._pump_worker "manual" 0 None shutdown_run zero_cap)
                 = Ok (Some (1, "completed"))) by (vm_compute; reflexivity).
  destruct (H "manual" 0 None shutdown_run zero_cap (120, 0) 1 "completed" Hcaps Hrun)
    as [_ [_ Hle]].
  vm_compute in Hle. now apply Hle.
Qed.

(** C6, as the code has it: with both caps convertible by [int], the run
    length of a worker of either variant is
    [max(1, min(requested_seconds, cap))], where [cap] is the manual cap
    for mode [manual] and the automatic cap for any other mode; so the run
    length is at least one, and at most [cap] when [cap] is at least one,
    and a run that finishes reports that run length. When the run length
    is an [int] that converts to a float exactly, the worker does not
    raise and its first locked block records [running] and
    [ends_at = started_at + run_seconds]. (Beyond the float range that sum
    raises [OverflowError] in the code, and nothing is claimed of it.) *)
Theorem run_length_clamped (p : Plugin.t) mode requested_seconds moisture_before env
    va vm max_auto max_manual :
  config (Plugin.base p) !! "pump_max_runtime_seconds" = Some va ->
  py_int va = Ok max_auto ->
  config (Plugin.base p) !! "manual_max_runtime_seconds" = Some vm ->
  py_int vm = Ok max_manual ->
  let cap := if String.eqb mode "manual" then max_manual else max_auto in
  let run_seconds := Z.max 1 (Z.min requested_seconds cap) in
  let begun := mkPumpState true mode (re_started_at env)
                 (re_started_at env + inject_Z run_seconds) "" in
  1 <= run_seconds
  /\ (1 <= cap -> run_seconds <= cap)
  /\ (forall x reason c',
        Bonsai._pump_worker mode requested_seconds moisture_before env (Plugin.base p)
        = (Ok (Some (x, reason)), c') ->
        x = run_seconds)
  /\ (forall x reason p',
        Plugin._pump_worker mode requested_seconds moisture_before env p
        = (Ok (Some (x, reason)), p') ->
        x = run_seconds)
  /\ (float_exact run_seconds ->
      (exists r c' rest,
         Bonsai._pump_worker mode requested_seconds moisture_before env (Plugin.base p)
         = (Ok r, c')
         /\ trace c' = trace (Plugin.base p) ++ PumpBegin begun :: rest)
      /\ (exists r p' rest,
            Plugin._pump_worker mode requested_seconds moisture_before env p = (Ok r, p')
            /\ trace (Plugin.base p') = trace (Plugin.base p) ++ PumpBegin begun :: rest)).
Proof.
  intros Ha Hia Hm Him cap0 run_seconds begun.
  pose proof (run_caps_lookup _ _ _ _ _ Ha Hia Hm Him) as Hcaps.
  split; [unfold run_seconds; lia|].
  split; [unfold run_seconds; lia|].
  rewrite pump_worker_closed_form, plugin_pump_worker_closed_form. cbv zeta.
  rewrite Hcaps.
  change (clamp requested_seconds (cap mode (max_auto, max_manual))) with run_seconds.
  destruct p as [c hw g]. cbn [Plugin.base Plugin.gpio_ready Plugin.hw_present].
  destruct (poll_events _ _ _ _ _ _ _) as [[r|] [sd st]].
  - split; [now intros x reason c' [= <- _ _]|].
    split; [now intros x reason p' [= <- _ _]|].
    intros _. split; eexists; eexists; eexists; (split; reflexivity).
  - split; [discriminate|]. split; [discriminate|].
    intros _. split; eexists; eexists; eexists; (split; reflexivity).
Qed.

Lemma run_length_clamped_witness :
  let run_seconds := Z.max 1 (Z.min 45 30) in
  let begun := mkPumpState true "manual" 100 (100 + inject_Z run_seconds) "" in
  run_seconds = 30
  /\ (forall x reason c',
        Bonsai._pump_worker "manual" 45 None shutdown_run fresh
        = (Ok (Some (x, reason)), c') ->
        x = 30)
  /\ (exists r c' rest,
        Bonsai._pump_worker "manual" 45 None shutdown_run fresh = (Ok r, c')
        /\ trace c' = trace fresh ++ PumpBegin begun :: rest)
  /\ (exists r p' rest,
        Plugin._pump_worker "manual" 45 None shutdown_run (Plugin.mk fresh true true)
        = (Ok r, p')
        /\ trace (Plugin.base p') = trace fresh ++ PumpBegin begun :: rest).
Proof.
  assert (Hexact : float_exact (Z.max 1 (Z.min 45 30)))
    by (unfold float_exact; vm_compute; discriminate).
  assert (Ha : config fresh !! "pump_max_runtime_seconds" = Some (PInt 120))
    by (vm_compute; reflexivity).
  assert (Hm : config fresh !! "manual_max_runtime_seconds" = Some (PInt 30))
    by (vm_compute; reflexivity).
  destruct (run_length_clamped (Plugin.mk fresh true true) "manual" 45 None shutdown_run
              (PInt 120) (PInt 30) 120 30 Ha eq_refl Hm eq_refl)
    as (_ & _ & HB & _ & Hrun).
  destruct (Hrun Hexact) as [HrB HrP].
  split; [reflexivity|]. split; [exact HB|]. split; [exact HrB|exact HrP].
Defined.

(** ** The two workers *)

(** C10. From the same attributes, with the same mode, requested seconds,
    moisture before and the same clock readings, sensor outcome and ticks,
    the worker of [bonsai.py] and the worker of the plugin (which runs
    with the hardware modules imported, as [bonsai.py] must to load at
    all) return the same run length and stop reason, or both are still
    polling, or both raise the same exception; they leave the same pump
    record, the same table of watering events and the same other
    attributes; and when the plugin's relay is ready the two states are
    equal, trace and relay level included. *)
Theorem pump_workers_equivalent (p : Plugin.t) mode requested_seconds moisture_before env :
  Plugin.hw_present p = true ->
  let b := Bonsai._pump_worker mode requested_seconds moisture_before env (Plugin.base p) in
  let q := Plugin._pump_worker mode requested_seconds moisture_before env p in
  fst q = fst b
  /\ same_attributes (Plugin.base (snd q)) (snd b)
  /\ (Plugin.gpio_ready p = true -> Plugin.base (snd q) = snd b).
Proof.
  intros Hhw b q. subst b q.
  rewrite pump_worker_closed_form, plugin_pump_worker_closed_form. cbv zeta.
  rewrite Hhw, andb_true_r.
  destruct (run_caps (config (Plugin.base p))) as [caps|e].
  - destruct (poll_events _ _ _ _ _ _ _) as [[reason|] [sd st]];
      destruct p as [c hw g]; cbn [fst snd upd Plugin.CtrlState_t Plugin.base
        Plugin.gpio_ready Plugin.hw_present];
      (split; [reflexivity|]); (split; [repeat split|]); intros ->; reflexivity.
  - cbn [fst snd]. split; [reflexivity|]. split; [repeat split|reflexivity].
Qed.

Lemma pump_workers_equivalent_witness :
  let p := Plugin.mk fresh true false in
  let b := Bonsai._pump_worker "auto" 60 (Some 30%Q) shutdown_run fresh in
  let q := Plugin._pump_worker "auto" 60 (Some 30%Q) shutdown_run p in
  fst q = fst b
  /\ same_attributes (Plugin.base (snd q)) (snd b)
  /\ (false = true -> Plugin.base (snd q) = snd b).
Proof.
  exact (pump_workers_equivalent (Plugin.mk fresh true false) "auto" 60 (Some 30%Q)
           shutdown_run eq_refl).
Defined.

Example both_workers_log_the_same_event :
  watering_events (snd (Bonsai._pump_worker "auto" 60 (Some 30%Q) shutdown_run fresh))
  = [mkWateringEvent (1003 # 10) (3 # 10) (Some 30%Q) (Some 50%Q) "auto" "completed"]
  /\ watering_events
       (Plugin.base (snd (Plugin._pump_worker "auto" 60 (Some 30%Q) shutdown_run
                            (Plugin.mk fresh true true))))
     = [mkWateringEvent (1003 # 10) (3 # 10) (Some 30%Q) (Some 50%Q) "auto" "completed"].
Proof. split; reflexivity. Qed.

(** ** The stop signal *)

(** [stop_pump] only raises the signal, and raising it twice is raising
    it once. *)
Lemma stop_pump_idempotent (c : Controller) :
  snd (Bonsai.stop_pump (snd (Bonsai.stop_pump c))) = snd (Bonsai.stop_pump c)
  /\ _pump_stop_requested (snd (Bonsai.stop_pump c)) = true
  /\ pump (snd (Bonsai.stop_pump c)) = pump c
  /\ trace (snd (Bonsai.stop_pump c)) = trace c.
Proof. destruct c. repeat split. Qed.

(** The end of a run clears the signal. *)
Lemma finished_run_clears_stop_signal mode requested_seconds moisture_before env
    (c c' : Controller) run_seconds stop_reason :
  Bonsai._pump_worker mode requested_seconds moisture_before env c
  = (Ok (Some (run_seconds, stop_reason)), c') ->
  _pump_stop_requested c' = false.
Proof.
  rewrite pump_worker_closed_form.
  destruct (run_caps (config c)) as [caps|e]; [|discriminate].
  cbv zeta. destruct (poll_events _ _ _ _ _ _ _) as [[r|] [sd st]]; [|discriminate].
  now intros [= <- <- <-].
Qed.

(** C4, the stale signal: the manual toggle is switched off while nothing
    runs, which raises the stop signal; nothing clears it; the toggle is
    then switched on, the start is accepted, and the run ends at its
    first tick with [manual_stop] although nobody stopped it. Without the
    stale signal the same run lasts its thirty seconds. *)
Theorem stale_stop_ends_next_run :
  let '(r, c1) := Bonsai.api_manual_toggle true stopped_while_idle in
  let '(w, c2) := Bonsai._pump_worker "manual" 30 None undisturbed_run c1 in
  _pump_stop_requested stopped_while_idle = true
  /\ running (pump stopped_while_idle) = false
  /\ r = Ok 200
  /\ trace c1 = trace stopped_while_idle ++ [ThreadStart "manual" 30 None]
  /\ w = Ok (Some (30, "manual_stop"))
  /\ watering_events c2
     = [mkWateringEvent 130 30 None (Some 50%Q) "manual" "manual_stop"]
  /\ fst (Bonsai._pump_worker "manual" 30 None undisturbed_run fresh)
     = Ok (Some (30, "safety_timeout")).
Proof. vm_compute. repeat split; reflexivity. Qed.

(** ** The monitor loop *)

Lemma keeps_ret {A : Type} (a : A) : keeps_log (ret a).
Proof. intros c. reflexivity. Qed.

Lemma keeps_lift {A : Type} (r : result A) : keeps_log (lift r).
Proof. intros c. reflexivity. Qed.

Lemma keeps_read {A : Type} (f : Controller -> A) : keeps_log (read f).
Proof. intros c. reflexivity. Qed.

Lemma keeps_emit (e : effect) : keeps_log (emit e).
Proof. intros c. destruct c. reflexivity. Qed.

Lemma keeps_bind {A B : Type} (m : M Controller A) (k : A -> M Controller B) :
  keeps_log m -> (forall a, keeps_log (k a)) -> keeps_log (bind m k).
Proof.
  intros Hm Hk c. unfold bind. specialize (Hm c).
  destruct (m c) as [[a|e] c']; cbn [snd] in *.
  - now rewrite Hk.
  - exact Hm.
Qed.

Lemma logged_bind {A B : Type} (m : M Controller A) (k : A -> M Controller B) c :
  (forall a, keeps_log (k a)) ->
  logged (snd (bind m k c)) = logged (snd (m c)).
Proof.
  intros Hk. unfold bind. destruct (m c) as [[a|e] c']; cbn [snd].
  - apply Hk.
  - reflexivity.
Qed.

Ltac keeps_log_steps :=
  repeat first
    [ apply keeps_ret | apply keeps_lift | apply keeps_read | apply keeps_emit
    | apply keeps_bind; [|intros ?]
    | match goal with
      | |- keeps_log (match ?x with _ => _ end) => destruct x
      end
    | progress cbv zeta ].

(** What a cycle logs, whatever the configuration holds. *)
Lemma monitor_cycle_logged (env : cycle_env) (c : Controller) :
  logged (snd (Bonsai.monitor_cycle env c)) =
  match fst (snd (sensor_outcome (sensor c) true (ce_sensor env))) with
  | Some m => (Some m, moisture_readings c ++ [mkMoistureReading (ce_logged env) m])
  | None => logged c
  end.
Proof.
  unfold Bonsai.monitor_cycle.
  unfold bind at 1, read at 1. cbn [ctrl CtrlState_Controller].
  unfold bind at 1. rewrite read_moisture_outcome. cbv beta iota zeta.
  rewrite logged_bind.
  - destruct (sensor_outcome (sensor c) true (ce_sensor env)) as [effs [[m|] s]];
      destruct c; reflexivity.
  - intros _. unfold Bonsai._update_display, Bonsai.start_pump. keeps_log_steps.
Qed.

Lemma sensor_outcome_reading present env raw :
  present || se_connect_ok env = true ->
  se_raw env = Some raw ->
  fst (snd (sensor_outcome present true env)) = Some (Bonsai._convert_moisture raw).
Proof.
  intros Hs Hraw. unfold sensor_outcome. rewrite Hraw.
  destruct present; [reflexivity|]. cbn in Hs. now rewrite Hs.
Qed.

(** C9. Take any controller and any cycle of the monitor loop in which
    the sensor returns a reading, and run the cycle twice from that
    controller, with two values [v1] and [v2] of [auto_watering_enabled]
    (in particular [false] and [true]): both cycles cache the reading as
    the current moisture and append the same row to the table of
    moisture readings, whatever else the configuration holds. *)
Theorem moisture_logged_whatever_auto (c : Controller) (env : cycle_env)
    (v1 v2 : pyval) (raw : Z) :
  sensor c || se_connect_ok (ce_sensor env) = true ->
  se_raw (ce_sensor env) = Some raw ->
  let cycle v :=
    snd (Bonsai.monitor_cycle env
           (set_config (<["auto_watering_enabled" := v]> (config c)) c)) in
  let m := Bonsai._convert_moisture raw in
  let row := mkMoistureReading (ce_logged env) m in
  (current_moisture (cycle v1) = Some m
   /\ moisture_readings (cycle v1) = moisture_readings c ++ [row])
  /\ (current_moisture (cycle v2) = Some m
      /\ moisture_readings (cycle v2) = moisture_readings c ++ [row]).
Proof.
  intros Hs Hraw cycle m row.
  assert (H : forall v, logged (cycle v) = (Some m, moisture_readings c ++ [row])).
  { intros v. unfold cycle. rewrite monitor_cycle_logged.
    replace (sensor (set_config _ c)) with (sensor c) by (destruct c; reflexivity).
    rewrite (sensor_outcome_reading _ _ raw Hs Hraw).
    destruct c; reflexivity. }
  split.
  - pose proof (H v1) as [= H1 H2]. now split.
  - pose proof (H v2) as [= H1 H2]. now split.
Qed.

Lemma moisture_logged_whatever_auto_witness :
  let env := mkCycleEnv (mkSensorEnv true (Some 510)) 1000 40000 in
  let cycle v :=
    snd (Bonsai.monitor_cycle env
           (set_config (<["auto_watering_enabled" := v]> (config fresh)) fresh)) in
  let m := Bonsai._convert_moisture 510 in
  let row := mkMoistureReading 1000 m in
  (current_moisture (cycle (PBool false)) = Some m
   /\ moisture_readings (cycle (PBool false)) = moisture_readings fresh ++ [row])
  /\ (current_moisture (cycle (PBool true)) = Some m
      /\ moisture_readings (cycle (PBool true)) = moisture_readings fresh ++ [row]).
Proof.
  exact (moisture_logged_whatever_auto fresh
           (mkCycleEnv (mkSensorEnv true (Some 510)) 1000 40000)
           (PBool false) (PBool true) 510 eq_refl eq_refl).
Defined.

(** The gate does differ: the dry reading starts an automatic run only
    when auto watering is enabled. *)
Example auto_gate_differs :
  let env := mkCycleEnv (mkSensorEnv true (Some 510)) 1000 40000 in
  let cycle v :=
    snd (Bonsai.monitor_cycle env
           (set_config (<["auto_watering_enabled" := v]> (config fresh)) fresh)) in
  trace (cycle (PBool true))
  = [GpioOutput 26 HIGH; SensorConnect true; SensorRead (Some 510);
     InsertMoisture (mkMoistureReading 1000 30); ThreadStart "auto" 60 (Some 30%Q)]
  /\ trace (cycle (PBool false))
     = [GpioOutput 26 HIGH; SensorConnect true; SensorRead (Some 510);
        InsertMoisture (mkMoistureReading 1000 30)].
Proof. vm_compute. split; reflexivity. Qed.

(** * Further properties of the code *)

(** ** Rounding and the calibration formula *)

Lemma round_half_even_floor (q : Q) :
  Qfloor q <= round_half_even q <= Qfloor q + 1.
Proof.
  unfold round_half_even.
  destruct (Qcompare _ _); [destruct (Z.even _)| |]; lia.
Qed.

Lemma round_half_even_ge (a : Z) (q : Q) :
  (inject_Z a <= q)%Q -> a <= round_half_even q.
Proof.
  intros H. apply Qfloor_resp_le in H. rewrite Qfloor_Z in H.
  pose proof (round_half_even_floor q). lia.
Qed.

Lemma floor_lt_of_le (b : Z) (q : Q) :
  (inject_Z (Qfloor q) < q)%Q -> (q <= inject_Z b)%Q -> Qfloor q + 1 <= b.
Proof.
  intros Hlt Hle.
  assert (H : (inject_Z (Qfloor q) < inject_Z b)%Q) by lra.
  rewrite <- Zlt_Qlt in H. lia.
Qed.

Lemma round_half_even_le (b : Z) (q : Q) :
  (q <= inject_Z b)%Q -> round_half_even q <= b.
Proof.
  intros H. pose proof (Qfloor_resp_le _ _ H) as Hfl. rewrite Qfloor_Z in Hfl.
  unfold round_half_even.
  destruct (Qcompare_spec (q - inject_Z (Qfloor q)) (1 # 2)) as [He|Hl|Hg].
  - destruct (Z.even _); [exact Hfl|]. apply floor_lt_of_le; [lra|exact H].
  - exact Hfl.
  - apply floor_lt_of_le; [lra|exact H].
Qed.

Lemma round_half_even_mono (q1 q2 : Q) :
  (q1 <= q2)%Q -> round_half_even q1 <= round_half_even q2.
Proof.
  intros H. pose proof (Qfloor_resp_le _ _ H) as Hfl.
  destruct (Z.eq_dec (Qfloor q1) (Qfloor q2)) as [Heq|Hne].
  - unfold round_half_even. rewrite <- Heq.
    destruct (Qcompare_spec (q1 - inject_Z (Qfloor q1)) (1 # 2)) as [He|Hl|Hg];
      destruct (Qcompare_spec (q2 - inject_Z (Qfloor q1)) (1 # 2)) as [He2|Hl2|Hg2];
      try destruct (Z.even _); try lia; exfalso; lra.
  - pose proof (round_half_even_floor q1). pose proof (round_half_even_floor q2). lia.
Qed.

Lemma round1_bounds (a b : Z) (q : Q) :
  (inject_Z a <= q)%Q -> (q <= inject_Z b)%Q ->
  (inject_Z a <= round1 q)%Q /\ (round1 q <= inject_Z b)%Q.
Proof.
  intros Ha Hb. unfold round1. rewrite Qred_correct.
  assert (H1 : 10 * a <= round_half_even (q * 10)).
  { apply round_half_even_ge. rewrite inject_Z_mult. change (inject_Z 10) with 10%Q. lra. }
  assert (H2 : round_half_even (q * 10) <= 10 * b).
  { apply round_half_even_le. rewrite inject_Z_mult. change (inject_Z 10) with 10%Q. lra. }
  set (z := round_half_even (q * 10)) in *.
  unfold Qle. cbn. lia.
Qed.

Lemma round1_mono (q1 q2 : Q) : (q1 <= q2)%Q -> (round1 q1 <= round1 q2)%Q.
Proof.
  intros H. unfold round1. rewrite !Qred_correct.
  assert (Hm : round_half_even (q1 * 10) <= round_half_even (q2 * 10)).
  { apply round_half_even_mono. lra. }
  unfold Qle. cbn. lia.
Qed.

(** The percentage before rounding. *)
Lemma convert_moisture_unfold (raw : Z) :
  Bonsai._convert_moisture raw =
  round1 (let pct := ((inject_Z (600 - raw) / inject_Z (600 - 300)) * 100)%Q in
          let m := if Qlt_le_dec pct 100 then pct else 100%Q in
          if Qlt_le_dec 0 m then m else 0%Q).
Proof. reflexivity. Qed.

Lemma linear_pct (raw : Z) :
  ((inject_Z (600 - raw) / inject_Z (600 - 300)) * 100 == inject_Z (600 - raw) * (1 # 3))%Q.
Proof.
  unfold Qdiv. change (/ inject_Z (600 - 300))%Q with (1 # 300)%Q. ring.
Qed.

Lemma clamped_pct_range (pct : Q) :
  (0 <= (let m := if Qlt_le_dec pct 100 then pct else 100 in
         if Qlt_le_dec 0 m then m else 0) <= 100)%Q.
Proof.
  cbv zeta. destruct (Qlt_le_dec pct 100); destruct (Qlt_le_dec 0 _); lra.
Qed.

Lemma clamped_pct_mono (p1 p2 : Q) :
  (p1 <= p2)%Q ->
  ((let m := if Qlt_le_dec p1 100 then p1 else 100 in
    if Qlt_le_dec 0 m then m else 0)
   <= (let m := if Qlt_le_dec p2 100 then p2 else 100 in
       if Qlt_le_dec 0 m then m else 0))%Q.
Proof.
  intros H. cbv zeta.
  destruct (Qlt_le_dec p1 100); destruct (Qlt_le_dec p2 100);
    repeat match goal with |- context [Qlt_le_dec 0 ?x] => destruct (Qlt_le_dec 0 x) end;
    lra.
Qed.

(** X1. The percentage is always within 0 and 100, in both variants. *)
Theorem convert_moisture_range (raw : Z) :
  (0 <= Bonsai._convert_moisture raw)%Q
  /\ (Bonsai._convert_moisture raw <= 100)%Q
  /\ (0 <= Plugin._convert_moisture raw)%Q
  /\ (Plugin._convert_moisture raw <= 100)%Q.
Proof.
  change (Plugin._convert_moisture raw) with (Bonsai._convert_moisture raw).
  rewrite convert_moisture_unfold.
  pose proof (clamped_pct_range ((inject_Z (600 - raw) / inject_Z (600 - 300)) * 100)) as [H0 H1].
  destruct (round1_bounds 0 100 _ H0 H1) as [Ha Hb].
  change (inject_Z 0) with 0%Q in Ha. change (inject_Z 100) with 100%Q in Hb.
  repeat split; assumption.
Qed.

(** X2. At and beyond the dry reference the percentage is exactly 0, at and
    beyond the wet reference exactly 100. *)
Theorem convert_moisture_saturates (raw : Z) :
  (600 <= raw -> Bonsai._convert_moisture raw = 0%Q)
  /\ (raw <= 300 -> Bonsai._convert_moisture raw = 100%Q).
Proof.
  rewrite convert_moisture_unfold. cbv zeta.
  pose proof (linear_pct raw) as Hlin.
  set (pct := ((inject_Z (600 - raw) / inject_Z (600 - 300)) * 100)%Q) in *.
  split.
  - intros Hraw.
    assert (Hp : (pct <= 0)%Q).
    { rewrite Hlin.
      assert (H0 : (inject_Z (600 - raw) <= inject_Z 0)%Q) by (rewrite <- Zle_Qle; lia).
      change (inject_Z 0) with 0%Q in H0. lra. }
    destruct (Qlt_le_dec pct 100); [|lra].
    destruct (Qlt_le_dec 0 pct); [lra|reflexivity].
  - intros Hraw.
    assert (Hp : (100 <= pct)%Q).
    { rewrite Hlin.
      assert (H0 : (inject_Z 300 <= inject_Z (600 - raw))%Q) by (rewrite <- Zle_Qle; lia).
      change (inject_Z 300) with 300%Q in H0. lra. }
    destruct (Qlt_le_dec pct 100); [lra|].
    destruct (Qlt_le_dec 0 100); [reflexivity|lra].
Qed.

Lemma convert_moisture_saturates_witness :
  Bonsai._convert_moisture 750 = 0%Q /\ Bonsai._convert_moisture 120 = 100%Q.
Proof.
  split.
  - apply (proj1 (convert_moisture_saturates 750)). lia.
  - apply (proj2 (convert_moisture_saturates 120)). lia.
Defined.

(** X3. A wetter soil (a lower raw reading) never gives a lower percentage. *)
Theorem convert_moisture_antitone (raw1 raw2 : Z) :
  raw1 <= raw2 ->
  (Bonsai._convert_moisture raw2 <= Bonsai._convert_moisture raw1)%Q.
Proof.
  intros H. rewrite !convert_moisture_unfold.
  apply round1_mono. apply clamped_pct_mono.
  rewrite !linear_pct.
  assert (H0 : (inject_Z (600 - raw2) <= inject_Z (600 - raw1))%Q)
    by (rewrite <- Zle_Qle; lia).
  lra.
Qed.

Lemma convert_moisture_antitone_witness :
  (Bonsai._convert_moisture 500 <= Bonsai._convert_moisture 400)%Q.
Proof. apply (convert_moisture_antitone 400 500). lia. Defined.

(** ** The monitor loop under numeric settings *)

Ltac cycle_step :=
  cbv beta iota zeta delta
    [bind read ret lift modify emit py_lt py_gt py_ge py_int py_bool
     Bonsai._log_moisture Bonsai._update_display Bonsai.start_pump
     upd ctrl CtrlState_Controller fst snd negb andb
     set_current_moisture set_moisture_readings set_trace
     config current_moisture last_watered last_water_time manual_toggle_on pump
     _shutdown _pump_stop_requested sensor display relay moisture_readings
     watering_events trace set_sensor running].

Lemma monitor_cycle_numeric (env : cycle_env) (c : Controller)
    low high duration interval read_interval auto :
  monitor_settings (config c) low high duration interval read_interval auto ->
  Bonsai.monitor_cycle env c =
  (Ok (Z.max 30 read_interval), cycle_state low high duration interval auto env c).
Proof.
  intros (Hlow & Hhigh & Hdur & Hint & Hri & Hauto).
  unfold Bonsai.monitor_cycle.
  unfold bind at 1, read at 1. cbn [ctrl CtrlState_Controller].
  unfold bind at 1. rewrite read_moisture_outcome. cbv beta iota zeta.
  unfold cycle_state, status_label, gate_open.
  destruct c as [cfg cm lw lwt mt pu sd st se di rl mr we tr].
  destruct pu as [run md sa ea sr].
  cbn [config sensor] in *.
  unfold item. rewrite Hlow, Hhigh, Hdur, Hint, Hri, Hauto.
  destruct (sensor_outcome se true (ce_sensor env)) as [effs [[m|] s]];
    [|destruct cm as [m|]];
    cycle_step; destruct run, di, auto; cycle_step;
    repeat match goal with
           | |- context [Qle_bool ?a ?b] => destruct (Qle_bool a b); cycle_step
           end;
    cbn [map app];
    rewrite <- ?app_assoc, ?app_nil_r; cbn [app]; reflexivity.
Qed.

(** ** The sensor gateway *)

(** X4. A read that fails drops the handle, and the next read opens a new one:
    whatever the first call found, if [moisture_read] raised in it, a
    second call in which the sensor answers connects again and returns the
    reading. *)
Theorem sensor_reconnects_after_failure (c : Controller) (env1 env2 : sensor_env)
    (raw : Z) :
  se_raw env1 = None ->
  se_connect_ok env2 = true ->
  se_raw env2 = Some raw ->
  let c1 := snd (Bonsai._read_moisture env1 c) in
  fst (Bonsai._read_moisture env1 c) = Ok None
  /\ sensor c1 = false
  /\ Bonsai._read_moisture env2 c1
     = (Ok (Some (Bonsai._convert_moisture raw)),
        set_sensor true
          (set_trace (trace c1 ++ [SensorConnect true; SensorRead (Some raw)]) c1)).
Proof.
  intros H1 Hok Hraw c1. subst c1.
  rewrite !read_moisture_outcome. cbv zeta.
  unfold sensor_outcome. rewrite H1, Hok, Hraw.
  destruct c as [cfg cm lw lwt mt pu sd st se di rl mr we tr].
  destruct se, (se_connect_ok env1); cbn; repeat split; reflexivity.
Qed.

Lemma sensor_reconnects_after_failure_witness :
  let c1 := snd (Bonsai._read_moisture (mkSensorEnv true None) fresh) in
  fst (Bonsai._read_moisture (mkSensorEnv true None) fresh) = Ok None
  /\ sensor c1 = false
  /\ Bonsai._read_moisture (mkSensorEnv true (Some 450)) c1
     = (Ok (Some (Bonsai._convert_moisture 450)),
        set_sensor true
          (set_trace (trace c1 ++ [SensorConnect true; SensorRead (Some 450)]) c1)).
Proof.
  exact (sensor_reconnects_after_failure fresh (mkSensorEnv true None)
           (mkSensorEnv true (Some 450)) 450 eq_refl eq_refl eq_refl).
Defined.

(** X5. A handle, once opened, is kept: after a read that succeeded, the next
    read asks the sensor without opening a handle again, also at a moment
    when opening one would fail. *)
Theorem sensor_handle_is_cached (c : Controller) (env1 env2 : sensor_env)
    (raw1 raw2 : Z) :
  sensor c || se_connect_ok env1 = true ->
  se_raw env1 = Some raw1 ->
  se_raw env2 = Some raw2 ->
  let c1 := snd (Bonsai._read_moisture env1 c) in
  sensor c1 = true
  /\ Bonsai._read_moisture env2 c1
     = (Ok (Some (Bonsai._convert_moisture raw2)),
        set_trace (trace c1 ++ [SensorRead (Some raw2)]) c1).
Proof.
  intros Hs H1 H2 c1. subst c1.
  rewrite !read_moisture_outcome. cbv zeta.
  unfold sensor_outcome. rewrite H1, H2.
  destruct c as [cfg cm lw lwt mt pu sd st se di rl mr we tr].
  cbn [sensor] in Hs.
  destruct se; [|cbn in Hs; rewrite Hs]; cbn; split; reflexivity.
Qed.

Lemma sensor_handle_is_cached_witness :
  let c1 := snd (Bonsai._read_moisture (mkSensorEnv true (Some 450)) fresh) in
  sensor c1 = true
  /\ Bonsai._read_moisture (mkSensorEnv false (Some 480)) c1
     = (Ok (Some (Bonsai._convert_moisture 480)),
        set_trace (trace c1 ++ [SensorRead (Some 480)]) c1).
Proof.
  exact (sensor_handle_is_cached fresh (mkSensorEnv true (Some 450))
           (mkSensorEnv false (Some 480)) 450 480 eq_refl eq_refl eq_refl).
Defined.

(** X6. Without the hardware modules the plugin never reaches the sensor: a
    read returns [None] and changes nothing, whatever the sensor would
    answer. *)
Theorem plugin_sensor_without_hardware (p : Plugin.t) (env : sensor_env) :
  Plugin.hw_present p = false ->
  sensor (Plugin.base p) = false ->
  Plugin._read_moisture env p = (Ok None, p).
Proof.
  intros Hhw Hs. rewrite plugin_read_moisture_outcome. cbv zeta.
  unfold sensor_outcome. rewrite Hhw, Hs.
  destruct p as [c hw g]. destruct c. cbn in *. subst. rewrite app_nil_r. reflexivity.
Qed.

Lemma plugin_sensor_without_hardware_witness :
  Plugin._read_moisture (mkSensorEnv true (Some 450)) (Plugin.init None false true true)
  = (Ok None, Plugin.init None false true true).
Proof.
  exact (plugin_sensor_without_hardware (Plugin.init None false true true)
           (mkSensorEnv true (Some 450)) eq_refl eq_refl).
Defined.

(** ** More on the pump worker *)

(** X7. When a cap is missing from the configuration or cannot be converted by
    [int], the worker raises before its first locked block: the controller
    is left exactly as it was, the relay is not driven and no run is
    recorded. The same holds for the plugin. *)
Theorem worker_raises_before_any_effect (p : Plugin.t) mode requested_seconds
    moisture_before env e :
  run_caps (config (Plugin.base p)) = Raise e ->
  Bonsai._pump_worker mode requested_seconds moisture_before env (Plugin.base p)
  = (Raise e, Plugin.base p)
  /\ Plugin._pump_worker mode requested_seconds moisture_before env p = (Raise e, p).
Proof.
  intros H. rewrite pump_worker_closed_form, plugin_pump_worker_closed_form.
  cbv zeta. rewrite H. split; reflexivity.
Qed.

Lemma worker_raises_before_any_effect_witness :
  let c := set_config (<["pump_max_runtime_seconds" := PStr "two minutes"]>
                         Bonsai.DEFAULT_CONFIG) fresh in
  Bonsai._pump_worker "manual" 30 None undisturbed_run c = (Raise ValueError, c)
  /\ Plugin._pump_worker "manual" 30 None undisturbed_run (Plugin.mk c true true)
     = (Raise ValueError, Plugin.mk c true true).
Proof.
  refine (worker_raises_before_any_effect
            (Plugin.mk (set_config (<["pump_max_runtime_seconds" := PStr "two minutes"]>
                                      Bonsai.DEFAULT_CONFIG) fresh) true true)
            "manual" 30 None undisturbed_run ValueError _).
  vm_compute. reflexivity.
Defined.




(** X9. The end of a run: the manual toggle is switched off, the time of the
    watering is recorded, the stop signal is cleared (also one raised
    during the run), the configuration, the cached moisture and the table
    of readings are as before (the moisture read after the run is logged
    with the event, not cached), and the next start is accepted. *)
Theorem finished_run_teardown mode requested_seconds moisture_before env
    (c c' : Controller) run_seconds stop_reason :
  Bonsai._pump_worker mode requested_seconds moisture_before env c
  = (Ok (Some (run_seconds, stop_reason)), c') ->
  manual_toggle_on c' = false
  /\ last_water_time c' = re_last env
  /\ last_watered c' = Some (re_watered env)
  /\ _pump_stop_requested c' = false
  /\ running (pump c') = false
  /\ config c' = config c
  /\ current_moisture c' = current_moisture c
  /\ moisture_readings c' = moisture_readings c
  /\ forall mode' seconds,
       fst (Bonsai.start_pump mode' seconds c') = Ok (true, "Pump started").
Proof.
  rewrite pump_worker_closed_form.
  destruct (run_caps (config c)) as [caps|e]; [|discriminate].
  cbv zeta. destruct (poll_events _ _ _ _ _ _ _) as [[r|] [sd st]]; [|discriminate].
  intros [= <- <- <-].
  do 8 (split; [reflexivity|]).
  intros mode' seconds. now rewrite start_pump_accepts_idle.
Qed.

Lemma finished_run_teardown_witness :
  let env := mkRunEnv 100 100 [mkTick [] 101; mkTick [CallStopPump] 102] 102
               (mkSensorEnv true (Some 450)) 102 103 104 in
  let c' := snd (Bonsai._pump_worker "manual" 30 None env fresh) in
  manual_toggle_on c' = false
  /\ last_water_time c' = 104%Q
  /\ last_watered c' = Some 103%Q
  /\ _pump_stop_requested c' = false
  /\ running (pump c') = false
  /\ config c' = config fresh
  /\ current_moisture c' = current_moisture fresh
  /\ moisture_readings c' = moisture_readings fresh
  /\ forall mode' seconds,
       fst (Bonsai.start_pump mode' seconds c') = Ok (true, "Pump started").
Proof.
  intros env c'.
  refine (finished_run_teardown "manual" 30 None env fresh c' 30 "manual_stop" _).
  vm_compute. reflexivity.
Defined.

(** ** The automatic gate *)

Lemma started_threads_app l1 l2 :
  started_threads (l1 ++ l2) = started_threads l1 ++ started_threads l2.
Proof. apply flat_map_app. Qed.

Lemma shown_statuses_app l1 l2 :
  shown_statuses (l1 ++ l2) = shown_statuses l1 ++ shown_statuses l2.
Proof. apply flat_map_app. Qed.

Lemma started_threads_sensor present may_connect env :
  started_threads (fst (sensor_outcome present may_connect env)) = []
  /\ shown_statuses (fst (sensor_outcome present may_connect env)) = [].
Proof.
  unfold sensor_outcome.
  destruct present, may_connect, (se_connect_ok env), (se_raw env); split; reflexivity.
Qed.

Lemma started_threads_rows rows :
  started_threads (map InsertMoisture rows) = []
  /\ shown_statuses (map InsertMoisture rows) = [].
Proof. induction rows as [|r rows [IH1 IH2]]; split; cbn; auto. Qed.

(** The threads a cycle starts and the labels it shows, under numeric
    settings. *)
Lemma cycle_state_threads low high duration interval auto env (c : Controller) :
  let so := sensor_outcome (sensor c) true (ce_sensor env) in
  let m := match fst (snd so) with Some m => Some m | None => current_moisture c end in
  started_threads (trace (cycle_state low high duration interval auto env c))
  = started_threads (trace c)
    ++ match m with
       | Some mv =>
           if gate_open auto low interval mv (last_water_time c) (ce_now env)
                (running (pump c))
           then [("auto", duration, m)] else []
       | None => []
       end.
Proof.
  cbv zeta. unfold cycle_state. cbn [trace].
  rewrite !started_threads_app.
  rewrite (proj1 (started_threads_sensor _ _ _)), (proj1 (started_threads_rows _)).
  cbn [app]. f_equal.
  destruct (display c); cbn [started_threads flat_map app];
    destruct (match fst (snd (sensor_outcome (sensor c) true (ce_sensor env))) with
              | Some m => Some m | None => current_moisture c end) as [mv|];
    try reflexivity;
    destruct (gate_open _ _ _ _ _ _ _); reflexivity.
Qed.

Lemma sensor_answers_outcome (c : Controller) env raw :
  sensor_answers c env raw ->
  fst (snd (sensor_outcome (sensor c) true env)) = Some (Bonsai._convert_moisture raw).
Proof. intros [Hs Hraw]. now apply sensor_outcome_reading. Qed.

(** X10. The gate opens: with auto watering enabled, a reading below the low
    threshold, the minimal interval elapsed since the last watering and no
    run active, the cycle starts exactly one thread, an automatic run of
    the configured duration with the reading as moisture before; the pump
    record is not touched by the cycle; and the loop then sleeps for the
    configured interval, but at least thirty seconds. *)
Theorem auto_run_starts (c : Controller) (env : cycle_env)
    low high duration interval read_interval (raw : Z) :
  monitor_settings (config c) low high duration interval read_interval true ->
  sensor_answers c (ce_sensor env) raw ->
  (Bonsai._convert_moisture raw < inject_Z low)%Q ->
  (inject_Z interval <= ce_now env - last_water_time c)%Q ->
  running (pump c) = false ->
  let r := Bonsai.monitor_cycle env c in
  fst r = Ok (Z.max 30 read_interval)
  /\ 30 <= Z.max 30 read_interval
  /\ started_threads (trace (snd r))
     = started_threads (trace c)
       ++ [("auto", duration, Some (Bonsai._convert_moisture raw))]
  /\ pump (snd r) = pump c.
Proof.
  intros Hset Hans Hlow Hint Hidle r. subst r.
  rewrite (monitor_cycle_numeric _ _ _ _ _ _ _ _ Hset). cbn [fst snd].
  split; [reflexivity|]. split; [lia|]. split; [|reflexivity].
  rewrite cycle_state_threads. cbv zeta.
  rewrite (sensor_answers_outcome _ _ _ Hans).
  unfold gate_open. rewrite Hidle.
  apply Qle_bool_iff in Hint. rewrite Hint.
  assert (Hl : Qle_bool (inject_Z low) (Bonsai._convert_moisture raw) = false).
  { apply not_true_is_false. rewrite Qle_bool_iff. lra. }
  rewrite Hl. reflexivity.
Qed.

Lemma auto_run_starts_witness :
  let env := mkCycleEnv (mkSensorEnv true (Some 510)) 1000 28800 in
  let r := Bonsai.monitor_cycle env fresh in
  fst r = Ok (Z.max 30 300)
  /\ 30 <= Z.max 30 300
  /\ started_threads (trace (snd r))
     = started_threads (trace fresh)
       ++ [("auto", 60, Some (Bonsai._convert_moisture 510))]
  /\ pump (snd r) = pump fresh.
Proof.
  refine (auto_run_starts fresh (mkCycleEnv (mkSensorEnv true (Some 510)) 1000 28800)
            35 65 60 28800 300 510 _ _ _ _ _).
  - repeat split; vm_compute; reflexivity.
  - split; reflexivity.
  - vm_compute. reflexivity.
  - vm_compute. discriminate.
  - reflexivity.
Defined.

(** X11. The gate stays shut: when auto watering is disabled, or the minimal
    interval since the last watering has not elapsed, or a run is active,
    or the sensor answers with a reading that is not below the low
    threshold, the cycle starts no thread. *)
Theorem auto_run_withheld (c : Controller) (env : cycle_env)
    low high duration interval read_interval auto :
  monitor_settings (config c) low high duration interval read_interval auto ->
  auto = false
  \/ (ce_now env - last_water_time c < inject_Z interval)%Q
  \/ running (pump c) = true
  \/ (exists raw, sensor_answers c (ce_sensor env) raw
                  /\ (inject_Z low <= Bonsai._convert_moisture raw)%Q) ->
  started_threads (trace (snd (Bonsai.monitor_cycle env c)))
  = started_threads (trace c).
Proof.
  intros Hset Hshut.
  rewrite (monitor_cycle_numeric _ _ _ _ _ _ _ _ Hset). cbn [snd].
  rewrite cycle_state_threads. cbv zeta.
  rewrite <- (app_nil_r (started_threads (trace c))) at 2. f_equal.
  destruct Hshut as [-> | [Hint | [Hrun | (raw & Hans & Hlow)]]].
  - destruct (match _ with Some m => Some m | None => current_moisture c end); reflexivity.
  - assert (Hi : Qle_bool (inject_Z interval) (ce_now env - last_water_time c) = false).
    { apply not_true_is_false. rewrite Qle_bool_iff. lra. }
    unfold gate_open. rewrite Hi.
    destruct (match _ with Some m => Some m | None => current_moisture c end);
      [|reflexivity].
    now rewrite !andb_false_r.
  - unfold gate_open. rewrite Hrun.
    destruct (match _ with Some m => Some m | None => current_moisture c end);
      [|reflexivity].
    now rewrite !andb_false_r.
  - rewrite (sensor_answers_outcome _ _ _ Hans).
    apply Qle_bool_iff in Hlow. unfold gate_open. rewrite Hlow.
    now rewrite andb_false_r.
Qed.

Lemma auto_run_withheld_witness :
  started_threads
    (trace (snd (Bonsai.monitor_cycle
                   (mkCycleEnv (mkSensorEnv true (Some 510)) 1000 28799) fresh)))
  = started_threads (trace fresh).
Proof.
  refine (auto_run_withheld fresh (mkCycleEnv (mkSensorEnv true (Some 510)) 1000 28799)
            35 65 60 28800 300 true _ _).
  - repeat split; vm_compute; reflexivity.
  - right. left. vm_compute. reflexivity.
Defined.

(** X12. The gate works on the cached moisture: in a cycle whose sensor read
    fails, nothing is logged, but an earlier reading that is still cached
    and below the low threshold starts an automatic run all the same,
    with that old reading as moisture before. *)
Theorem stale_reading_drives_gate (c : Controller) (env : cycle_env)
    low high duration interval read_interval (m : Q) :
  monitor_settings (config c) low high duration interval read_interval true ->
  se_raw (ce_sensor env) = None ->
  current_moisture c = Some m ->
  (m < inject_Z low)%Q ->
  (inject_Z interval <= ce_now env - last_water_time c)%Q ->
  running (pump c) = false ->
  let c' := snd (Bonsai.monitor_cycle env c) in
  moisture_readings c' = moisture_readings c
  /\ current_moisture c' = Some m
  /\ started_threads (trace c') = started_threads (trace c) ++ [("auto", duration, Some m)].
Proof.
  intros Hset Hraw Hm Hlow Hint Hidle c'. subst c'.
  rewrite (monitor_cycle_numeric _ _ _ _ _ _ _ _ Hset). cbn [snd].
  assert (Hso : fst (snd (sensor_outcome (sensor c) true (ce_sensor env))) = None).
  { unfold sensor_outcome. rewrite Hraw.
    destruct (sensor c), (se_connect_ok (ce_sensor env)); reflexivity. }
  split; [|split].
  - unfold cycle_state. cbn [moisture_readings]. rewrite Hso. apply app_nil_r.
  - unfold cycle_state. cbn [current_moisture]. now rewrite Hso.
  - rewrite cycle_state_threads. cbv zeta. rewrite Hso, Hm.
    unfold gate_open. rewrite Hidle.
    apply Qle_bool_iff in Hint. rewrite Hint.
    assert (Hl : Qle_bool (inject_Z low) m = false).
    { apply not_true_is_false. rewrite Qle_bool_iff. lra. }
    now rewrite Hl.
Qed.

Lemma stale_reading_drives_gate_witness :
  let c := set_current_moisture (Some 20%Q) fresh in
  let c' := snd (Bonsai.monitor_cycle (mkCycleEnv (mkSensorEnv true None) 1000 40000) c) in
  moisture_readings c' = moisture_readings c
  /\ current_moisture c' = Some 20%Q
  /\ started_threads (trace c') = started_threads (trace c) ++ [("auto", 60, Some 20%Q)].
Proof.
  refine (stale_reading_drives_gate (set_current_moisture (Some 20%Q) fresh)
            (mkCycleEnv (mkSensorEnv true None) 1000 40000)
            35 65 60 28800 300 20 _ _ _ _ _ _).
  - repeat split; vm_compute; reflexivity.
  - reflexivity.
  - reflexivity.
  - vm_compute. reflexivity.
  - vm_compute. discriminate.
  - reflexivity.
Defined.

(** X13. The label shown: a cycle with a display shows one label; it is [PUMP]
    while a run is active; otherwise the low threshold is tested first, so
    a reading below it is [DRY] also when the thresholds are inverted and
    the reading is above the high one. *)
Theorem shown_status (c : Controller) (env : cycle_env)
    low high duration interval read_interval auto (raw : Z) :
  monitor_settings (config c) low high duration interval read_interval auto ->
  sensor_answers c (ce_sensor env) raw ->
  display c = true ->
  let m := Bonsai._convert_moisture raw in
  shown_statuses (trace (snd (Bonsai.monitor_cycle env c)))
  = shown_statuses (trace c) ++ [status_label low high (Some m) (running (pump c))]
  /\ (running (pump c) = true -> status_label low high (Some m) (running (pump c)) = "PUMP")
  /\ (running (pump c) = false -> (m < inject_Z low)%Q ->
      status_label low high (Some m) (running (pump c)) = "DRY")
  /\ (running (pump c) = false -> (inject_Z low <= m)%Q -> (inject_Z high < m)%Q ->
      status_label low high (Some m) (running (pump c)) = "WET")
  /\ (running (pump c) = false -> (inject_Z low <= m)%Q -> (m <= inject_Z high)%Q ->
      status_label low high (Some m) (running (pump c)) = "OK").
Proof.
  intros Hset Hans Hdisp m.
  rewrite (monitor_cycle_numeric _ _ _ _ _ _ _ _ Hset). cbn [snd].
  split; [|repeat split].
  - unfold cycle_state. cbn [trace]. rewrite Hdisp.
    rewrite (sensor_answers_outcome _ _ _ Hans).
    rewrite !shown_statuses_app.
    rewrite (proj2 (started_threads_sensor _ _ _)), (proj2 (started_threads_rows _)).
    cbn [app]. f_equal. fold m.
    destruct (gate_open _ _ _ _ _ _ _); reflexivity.
  - intros ->. reflexivity.
  - intros -> Hlow. unfold status_label.
    assert (Hl : Qle_bool (inject_Z low) m = false).
    { apply not_true_is_false. rewrite Qle_bool_iff. lra. }
    now rewrite Hl.
  - intros -> Hlow Hhigh. unfold status_label.
    apply Qle_bool_iff in Hlow. rewrite Hlow.
    assert (Hh : Qle_bool m (inject_Z high) = false).
    { apply not_true_is_false. rewrite Qle_bool_iff. lra. }
    now rewrite Hh.
  - intros -> Hlow Hhigh. unfold status_label.
    apply Qle_bool_iff in Hlow. apply Qle_bool_iff in Hhigh. now rewrite Hlow, Hhigh.
Qed.

Lemma shown_status_witness :
  let c := set_config (<["moisture_threshold_low" := PInt 65]>
                         (<["moisture_threshold_high" := PInt 35]> Bonsai.DEFAULT_CONFIG))
             (mkController Bonsai.DEFAULT_CONFIG None None 0 false
                (mkPumpState false "idle" 0 0 "") false false false true HIGH [] [] []) in
  let env := mkCycleEnv (mkSensorEnv true (Some 450)) 1000 100 in
  shown_statuses (trace (snd (Bonsai.monitor_cycle env c))) = ["DRY"].
Proof.
  intros c env.
  destruct (shown_status c env 65 35 60 28800 300 true 450) as (Hs & _ & Hdry & _).
  - repeat split; vm_compute; reflexivity.
  - split; reflexivity.
  - reflexivity.
  - rewrite Hs, Hdry; [reflexivity | reflexivity | vm_compute; reflexivity].
Defined.

(** ** What a cycle of the monitor loop leaves alone, and how it fails *)

Lemma keeps_frame_ret {A : Type} (a : A) : keeps_frame (ret a).
Proof. intros c. reflexivity. Qed.

Lemma keeps_frame_lift {A : Type} (r : result A) : keeps_frame (lift r).
Proof. intros c. reflexivity. Qed.

Lemma keeps_frame_read {A : Type} (f : Controller -> A) : keeps_frame (read f).
Proof. intros c. reflexivity. Qed.

Lemma keeps_frame_modify (f : Controller -> Controller) :
  (forall c, monitor_frame (f c) = monitor_frame c) -> keeps_frame (modify f).
Proof. intros Hf c. apply Hf. Qed.

Lemma keeps_frame_emit (e : effect) : keeps_frame (emit e).
Proof. intros c. destruct c. reflexivity. Qed.

Lemma keeps_frame_bind {A B : Type} (m : M Controller A) (k : A -> M Controller B) :
  keeps_frame m -> (forall a, keeps_frame (k a)) -> keeps_frame (bind m k).
Proof.
  intros Hm Hk c. unfold bind. specialize (Hm c).
  destruct (m c) as [[a|e] c']; cbn [snd] in *.
  - now rewrite Hk.
  - exact Hm.
Qed.

Ltac keeps_frame_steps :=
  repeat first
    [ apply keeps_frame_ret | apply keeps_frame_lift | apply keeps_frame_read
    | apply keeps_frame_emit
    | apply keeps_frame_modify; intros c0; destruct c0; reflexivity
    | apply keeps_frame_bind; [|intros ?]
    | match goal with
      | |- keeps_frame (match ?x with _ => _ end) => destruct x
      end
    | progress cbv zeta ].

Lemma monitor_cycle_keeps_frame (env : cycle_env) :
  keeps_frame (Bonsai.monitor_cycle env).
Proof.
  unfold Bonsai.monitor_cycle, Bonsai._read_moisture, Bonsai._get_sensor,
    Bonsai._log_moisture, Bonsai._update_display, Bonsai.start_pump.
  keeps_frame_steps.
Qed.

(** X14. A cycle of the monitor loop, whatever the configuration holds and
    whether it raises or not, never changes the configuration, the pump
    record, the two events, the level of the relay line, the time of the
    last watering, the manual toggle or the table of watering events: it
    reads the sensor, caches and logs the reading, shows a label and may
    start a thread. *)
Theorem monitor_cycle_frame (env : cycle_env) (c : Controller) :
  monitor_frame (snd (Bonsai.monitor_cycle env c)) = monitor_frame c.
Proof. apply monitor_cycle_keeps_frame. Qed.

(** X15. The monitor loop has no handler around its cycle. With a reading at
    hand, a low threshold that is missing from the configuration raises
    [KeyError], and one that is not a number ([null], a string, a list or
    an object, all of which [/api/config] accepts) raises [TypeError]: the
    reading has been cached and logged by then, no label is shown and no
    run is started. *)
Theorem cycle_raises_on_bad_low_threshold (c : Controller) (env : cycle_env)
    (raw : Z) (e : exn) :
  sensor_answers c (ce_sensor env) raw ->
  (config c !! "moisture_threshold_low" = None /\ e = KeyError "moisture_threshold_low")
  \/ (exists v, config c !! "moisture_threshold_low" = Some v
                /\ not_a_number v = true /\ e = TypeError) ->
  let r := Bonsai.monitor_cycle env c in
  fst r = Raise e
  /\ moisture_readings (snd r)
     = moisture_readings c
       ++ [mkMoistureReading (ce_logged env) (Bonsai._convert_moisture raw)]
  /\ current_moisture (snd r) = Some (Bonsai._convert_moisture raw)
  /\ started_threads (trace (snd r)) = started_threads (trace c)
  /\ shown_statuses (trace (snd r)) = shown_statuses (trace c).
Proof.
  intros Hans Hbad r.
  pose proof (sensor_answers_outcome _ _ _ Hans) as Hso.
  pose proof (started_threads_sensor (sensor c) true (ce_sensor env)) as [Hth Hsh].
  destruct c as [cfg cm lw lwt mt pu sd st se di rl mr we tr].
  cbn [config sensor trace moisture_readings] in *.
  destruct (sensor_outcome se true (ce_sensor env)) as [effs [o s]] eqn:Hout.
  cbn [fst snd] in Hso, Hth, Hsh. subst o.
  set (m := Bonsai._convert_moisture raw) in *.
  assert (Heq : r = (Raise e,
                     mkController cfg (Some m) lw lwt mt pu sd st s di rl
                       (mr ++ [mkMoistureReading (ce_logged env) m]) we
                       ((tr ++ effs) ++ [InsertMoisture (mkMoistureReading (ce_logged env) m)]))).
  { subst r. unfold Bonsai.monitor_cycle.
    unfold bind at 1, read at 1. cbn [ctrl CtrlState_Controller].
    unfold bind at 1. rewrite read_moisture_outcome. cbv beta iota zeta.
    cbn [sensor]. rewrite Hout. unfold item. cbn [config].
    destruct Hbad as [[Hk ->] | (v & Hk & Hv & ->)]; rewrite Hk;
      [|destruct v; try discriminate Hv]; cycle_step; reflexivity. }
  rewrite Heq. cbn [fst snd moisture_readings current_moisture trace].
  rewrite !started_threads_app, !shown_statuses_app, Hth, Hsh.
  cbn. rewrite !app_nil_r. repeat split; reflexivity.
Qed.

Lemma cycle_raises_on_bad_low_threshold_witness :
  let c := set_config (<["moisture_threshold_low" := PStr "35"]> Bonsai.DEFAULT_CONFIG)
             fresh in
  let r := Bonsai.monitor_cycle (mkCycleEnv (mkSensorEnv true (Some 510)) 1000 40000) c in
  fst r = Raise TypeError
  /\ moisture_readings (snd r)
     = moisture_readings c ++ [mkMoistureReading 1000 (Bonsai._convert_moisture 510)]
  /\ current_moisture (snd r) = Some (Bonsai._convert_moisture 510)
  /\ started_threads (trace (snd r)) = started_threads (trace c)
  /\ shown_statuses (trace (snd r)) = shown_statuses (trace c).
Proof.
  refine (cycle_raises_on_bad_low_threshold
            (set_config (<["moisture_threshold_low" := PStr "35"]> Bonsai.DEFAULT_CONFIG)
               fresh)
            (mkCycleEnv (mkSensorEnv true (Some 510)) 1000 40000) 510 TypeError _ _).
  - split; reflexivity.
  - right. exists (PStr "35"). split; [vm_compute; reflexivity | split; reflexivity].
Defined.

(** ** The manual toggle *)

(** X16. Switching the toggle on while a run is active is a conflict: the
    answer is 409, no thread is started, the run goes on, and the manual
    toggle flag is left switched off, also when the active run is the
    manual one that had switched it on. *)
Theorem manual_toggle_conflict (c : Controller) (v : pyval) (seconds : Z) :
  running (pump c) = true ->
  config c !! "manual_max_runtime_seconds" = Some v ->
  py_int v = Ok seconds ->
  Bonsai.api_manual_toggle true c = (Ok 409, set_manual_toggle_on false c).
Proof.
  intros Hrun Hk Hv.
  unfold Bonsai.api_manual_toggle, config_item, item, Bonsai.start_pump.
  destruct c as [cfg cm lw lwt mt pu sd st se di rl mr we tr].
  cbn [config pump] in *.
  cbv beta iota zeta delta [bind read ret lift modify upd ctrl CtrlState_Controller
    set_manual_toggle_on config pump current_moisture last_watered last_water_time
    manual_toggle_on _shutdown _pump_stop_requested sensor display relay
    moisture_readings watering_events trace].
  rewrite Hk, Hv. cbv beta iota. rewrite Hrun. reflexivity.
Qed.

Lemma manual_toggle_conflict_witness :
  let c := snd (Bonsai._pump_worker "manual" 30 None
                  (mkRunEnv 100 100 [mkTick [] 101] 101 (mkSensorEnv true None)
                     101 101 101)
                  (set_manual_toggle_on true fresh)) in
  manual_toggle_on c = true
  /\ Bonsai.api_manual_toggle true c = (Ok 409, set_manual_toggle_on false c).
Proof.
  intros c. split; [reflexivity|].
  refine (manual_toggle_conflict c (PInt 30) 30 _ _ _); vm_compute; reflexivity.
Defined.



(** X18. Switching the toggle on with a manual cap that is missing or that
    [int] cannot convert raises in the handler, after the flag was
    switched on: no thread is started and the flag stays on. *)
Theorem manual_toggle_error_leaves_flag_on (c : Controller) (e : exn) :
  (config c !! "manual_max_runtime_seconds" = None
   /\ e = KeyError "manual_max_runtime_seconds")
  \/ (exists v, config c !! "manual_max_runtime_seconds" = Some v /\ py_int v = Raise e) ->
  Bonsai.api_manual_toggle true c = (Raise e, set_manual_toggle_on true c).
Proof.
  intros Hbad.
  unfold Bonsai.api_manual_toggle, config_item, item.
  destruct c as [cfg cm lw lwt mt pu sd st se di rl mr we tr].
  cbn [config] in *.
  cbv beta iota zeta delta [bind read ret lift modify upd ctrl CtrlState_Controller
    set_manual_toggle_on config pump current_moisture last_watered last_water_time
    manual_toggle_on _shutdown _pump_stop_requested sensor display relay
    moisture_readings watering_events trace].
  destruct Hbad as [[Hk ->] | (v & Hk & Hv)]; rewrite Hk; [reflexivity|].
  cbv beta iota. rewrite Hv. reflexivity.
Qed.

Lemma manual_toggle_error_leaves_flag_on_witness :
  let c := set_config (<["manual_max_runtime_seconds" := PNone]> Bonsai.DEFAULT_CONFIG)
             fresh in
  Bonsai.api_manual_toggle true c = (Raise TypeError, set_manual_toggle_on true c).
Proof.
  refine (manual_toggle_error_leaves_flag_on _ TypeError _).
  right. exists PNone. split; vm_compute; reflexivity.
Defined.

(** Switching the toggle off always answers 200, raises the stop signal
    and switches the flag off, run or no run; nothing else changes. *)
Theorem manual_toggle_off (c : Controller) :
  Bonsai.api_manual_toggle false c
  = (Ok 200, set_manual_toggle_on false (set_pump_stop_requested true c))
  /\ Plugin.api_manual_toggle false (Plugin.mk c true true)
     = (Ok 200,
        Plugin.mk (set_manual_toggle_on false (set_pump_stop_requested true c)) true true).
Proof. destruct c. split; reflexivity. Qed.

(** X19. The plugin without a ready relay: switching the toggle on is
    answered 409 with the flag off, and nothing else happens. *)
Theorem plugin_manual_toggle_not_ready (p : Plugin.t) (v : pyval) (seconds : Z) :
  Plugin.gpio_ready p = false ->
  config (Plugin.base p) !! "manual_max_runtime_seconds" = Some v ->
  py_int v = Ok seconds ->
  Plugin.api_manual_toggle true p = (Ok 409, upd (set_manual_toggle_on false) p).
Proof.
  intros Hg Hk Hv.
  unfold Plugin.api_manual_toggle, config_item, item, Plugin.start_pump.
  destruct p as [c hw g].
  destruct c as [cfg cm lw lwt mt pu sd st se di rl mr we tr].
  cbn [config Plugin.base Plugin.gpio_ready] in *. subst g.
  cbv beta iota zeta delta [bind read ret lift modify upd ctrl Plugin.CtrlState_t
    Plugin.base Plugin.gpio_ready Plugin.hw_present negb fst
    set_manual_toggle_on config pump current_moisture last_watered last_water_time
    manual_toggle_on _shutdown _pump_stop_requested sensor display relay
    moisture_readings watering_events trace].
  rewrite Hk, Hv. reflexivity.
Qed.

Lemma plugin_manual_toggle_not_ready_witness :
  let p := Plugin.init None false false false in
  Plugin.api_manual_toggle true p = (Ok 409, upd (set_manual_toggle_on false) p).
Proof.
  refine (plugin_manual_toggle_not_ready (Plugin.init None false false false)
            (PInt 30) 30 _ _ _); vm_compute; reflexivity.
Defined.

(** ** The configuration handlers *)

Lemma merge_allowed_lookup payload (cfg : gmap string pyval) (k : string) :
  BonsaiApi.merge_allowed payload cfg !! k =
  if existsb (String.eqb k) BonsaiApi.allowed then
    match payload_get k payload with
    | Some v => Some v
    | None => cfg !! k
    end
  else cfg !! k.
Proof.
  revert cfg. induction payload as [|[k' v] payload IH]; intros cfg.
  - cbn [BonsaiApi.merge_allowed payload_get]. now destruct (existsb _ _).
  - cbn [BonsaiApi.merge_allowed payload_get]. rewrite IH.
    destruct (String.eqb_spec k' k) as [->|Hne].
    + destruct (existsb (String.eqb k) BonsaiApi.allowed); [|reflexivity].
      destruct (payload_get k payload); [reflexivity|]. apply lookup_insert_eq.
    + destruct (existsb (String.eqb k) BonsaiApi.allowed); [|
        destruct (existsb (String.eqb k') BonsaiApi.allowed); [|reflexivity];
        now apply lookup_insert_ne].
      destruct (payload_get k payload); [reflexivity|].
      destruct (existsb (String.eqb k') BonsaiApi.allowed); [|reflexivity].
      now apply lookup_insert_ne.
Qed.

(** X20. [/api/config] takes from the payload the recognised keys only: after
    the call a recognised key that the payload binds holds the value of
    the payload, every other key holds what it held before (so an
    unrecognised key of the payload is dropped and no key is ever
    removed); the rest of the controller is as before, and what is saved
    and returned is the resulting configuration. *)
Theorem api_config_merges_recognised_keys (payload : list (string * pyval))
    (c : Controller) :
  let r := BonsaiApi.api_config payload c in
  (forall k,
     config (snd r) !! k =
     if existsb (String.eqb k) BonsaiApi.allowed then
       match payload_get k payload with
       | Some v => Some v
       | None => config c !! k
       end
     else config c !! k)
  /\ snd r = set_config (config (snd r)) c
  /\ fst r = Ok (Some (config (snd r)), config (snd r)).
Proof.
  cbv zeta. split; [|split].
  - intros k. destruct c. cbn. apply merge_allowed_lookup.
  - destruct c. reflexivity.
  - destruct c. reflexivity.
Qed.

Example api_config_drops_unknown_key :
  let r := BonsaiApi.api_config
             [("moisture_threshold_low", PInt 40); ("ha_token", PStr "x");
              ("colour", PStr "green")] fresh in
  config (snd r) !! "moisture_threshold_low" = Some (PInt 40)
  /\ config (snd r) !! "ha_token" = Some (PStr "")
  /\ config (snd r) !! "colour" = None.
Proof. vm_compute. repeat split; reflexivity. Qed.

(** X21. What is saved is what is loaded back: a configuration that has every
    key of the defaults (as every configuration of a controller has)
    survives [_save_config] followed by [_load_config] unchanged. *)
Theorem save_load_roundtrip (cfg : gmap string pyval) :
  has_default_keys cfg ->
  Bonsai._load_config (BonsaiApi._save_config cfg) = cfg.
Proof.
  intros H. unfold Bonsai._load_config, BonsaiApi._save_config.
  apply map_eq. intros k. rewrite lookup_update.
  destruct (cfg !! k) as [v|] eqn:Hk; [reflexivity|].
  destruct (Bonsai.DEFAULT_CONFIG !! k) as [d|] eqn:Hd; [|reflexivity].
  destruct (H k) as [w Hw]; [now exists d|]. congruence.
Qed.

Lemma load_config_has_default_keys file :
  has_default_keys (Bonsai._load_config file).
Proof.
  intros k [d Hd]. destruct file as [saved|]; cbn [Bonsai._load_config].
  - rewrite lookup_update. destruct (saved !! k); [eauto | rewrite Hd; eauto].
  - rewrite Hd. eauto.
Qed.

Lemma save_load_roundtrip_witness :
  Bonsai._load_config
    (BonsaiApi._save_config (Bonsai._load_config (Some {[ "ha_token" := PStr "t" ]})))
  = Bonsai._load_config (Some {[ "ha_token" := PStr "t" ]}).
Proof.
  apply (save_load_roundtrip (Bonsai._load_config (Some {[ "ha_token" := PStr "t" ]}))).
  apply load_config_has_default_keys.
Defined.

(** ** Invariants over everything that can happen *)

Lemma worker_config_and_tables mode seconds before env (c : Controller) :
  let c' := snd (Bonsai._pump_worker mode seconds before env c) in
  config c' = config c /\ tables_extend c c'.
Proof.
  cbv zeta. rewrite pump_worker_closed_form.
  destruct (run_caps (config c)) as [caps|e].
  - cbv zeta. destruct (poll_events _ _ _ _ _ _ _) as [[r|] [sd st]]; cbn [snd].
    + split; [reflexivity|]. split; [exists []; symmetry; apply app_nil_r|].
      eexists. reflexivity.
    + split; [reflexivity|]. split; exists []; symmetry; apply app_nil_r.
  - cbn [snd]. split; [reflexivity|]. split; exists []; symmetry; apply app_nil_r.
Qed.

Lemma monitor_config_and_tables env (c : Controller) :
  let c' := snd (Bonsai.monitor_cycle env c) in
  config c' = config c /\ tables_extend c c'.
Proof.
  cbv zeta.
  pose proof (monitor_cycle_keeps_frame env c) as Hf.
  pose proof (monitor_cycle_logged env c) as Hl.
  unfold monitor_frame in Hf. injection Hf as Hcfg _ _ _ _ _ _ _ Hwe.
  split; [exact Hcfg|]. split.
  - unfold logged in Hl.
    destruct (fst (snd (sensor_outcome (sensor c) true (ce_sensor env)))) as [m|];
      injection Hl as _ Hmr; rewrite Hmr.
    + eexists. reflexivity.
    + exists []. symmetry. apply app_nil_r.
  - rewrite Hwe. exists []. symmetry. apply app_nil_r.
Qed.

Lemma manual_toggle_config_and_tables enabled (c : Controller) :
  let c' := snd (Bonsai.api_manual_toggle enabled c) in
  config c' = config c
  /\ moisture_readings c' = moisture_readings c
  /\ watering_events c' = watering_events c.
Proof.
  cbv zeta. unfold Bonsai.api_manual_toggle, config_item, item, Bonsai.start_pump.
  destruct c as [cfg cm lw lwt mt pu sd st se di rl mr we tr].
  destruct enabled; [|repeat split].
  cbv beta iota zeta delta [bind read ret lift modify emit upd ctrl CtrlState_Controller
    set_manual_toggle_on set_trace config pump current_moisture last_watered
    last_water_time manual_toggle_on _shutdown _pump_stop_requested sensor display relay
    moisture_readings watering_events trace].
  destruct (cfg !! "manual_max_runtime_seconds") as [v|]; [|repeat split].
  cbv beta iota. destruct (py_int v) as [s|e]; [|repeat split].
  cbv beta iota. destruct (running pu); repeat split.
Qed.

Lemma extends_refl {A : Type} (l : list A) : extends l l.
Proof. exists []. symmetry. apply app_nil_r. Qed.

Lemma extends_trans {A : Type} (l1 l2 l3 : list A) :
  extends l1 l2 -> extends l2 l3 -> extends l1 l3.
Proof. intros [a ->] [b ->]. exists (a ++ b). now rewrite app_assoc. Qed.

Lemma serve_tables (r : request) (c : Controller) : tables_extend c (serve r c).
Proof.
  destruct r as [payload|enabled|enabled|now|env|mode seconds before env|]; cbn [serve].
  - destruct c; split; apply extends_refl.
  - destruct c; split; apply extends_refl.
  - destruct (manual_toggle_config_and_tables enabled c) as (_ & H1 & H2).
    split; [rewrite H1 | rewrite H2]; apply extends_refl.
  - destruct c; split; apply extends_refl.
  - apply monitor_config_and_tables.
  - apply worker_config_and_tables.
  - destruct c as [cfg cm lw lwt mt pu sd st se di rl mr we tr].
    destruct di; split; apply extends_refl.
Qed.

Lemma merge_allowed_keeps_keys payload (cfg : gmap string pyval) :
  has_default_keys cfg -> has_default_keys (BonsaiApi.merge_allowed payload cfg).
Proof.
  intros H k Hk. rewrite merge_allowed_lookup.
  destruct (existsb _ _); [destruct (payload_get k payload); [eauto|]|]; now apply H.
Qed.

Lemma serve_default_keys (r : request) (c : Controller) :
  has_default_keys (config c) -> has_default_keys (config (serve r c)).
Proof.
  intros H.
  destruct r as [payload|enabled|enabled|now|env|mode seconds before env|]; cbn [serve].
  - destruct c. cbn in *. now apply merge_allowed_keeps_keys.
  - destruct c. cbn in *. intros k Hk.
    destruct (String.eqb_spec "auto_watering_enabled" k) as [<-|Hne].
    + rewrite lookup_insert_eq. eauto.
    + rewrite lookup_insert_ne by exact Hne. now apply H.
  - destruct (manual_toggle_config_and_tables enabled c) as (-> & _). exact H.
  - destruct c. exact H.
  - destruct (monitor_config_and_tables env c) as (-> & _). exact H.
  - destruct (worker_config_and_tables mode seconds before env c) as (-> & _). exact H.
  - destruct c as [cfg cm lw lwt mt pu sd st se di rl mr we tr]. destruct di; exact H.
Qed.

(** X22. The two tables are append-only: whatever sequence of requests, monitor
    cycles, pump runs and shutdown a controller goes through, both tables
    afterwards are the tables before with rows appended; no row is ever
    changed or removed. *)
Theorem tables_are_append_only (rs : list request) (c : Controller) :
  tables_extend c (serve_all rs c).
Proof.
  revert c. induction rs as [|r rs IH]; intros c.
  - split; apply extends_refl.
  - cbn [serve_all fold_left].
    destruct (serve_tables r c) as [H1 H2].
    destruct (IH (serve r c)) as [H3 H4].
    split; eapply extends_trans; eassumption.
Qed.

(** X23. From the constructor on, the configuration holds every key of the
    defaults, whatever the configuration file held and whatever is posted
    to the handlers afterwards: the conversion of the caps in the pump
    worker never raises [KeyError]. *)
Theorem default_keys_always_present file display_ok (c : Controller)
    (rs : list request) :
  Bonsai.init file true display_ok = Ok c ->
  has_default_keys (config (serve_all rs c))
  /\ forall k, run_caps (config (serve_all rs c)) <> Raise (KeyError k).
Proof.
  intros Hinit.
  assert (H0 : has_default_keys (config c)).
  { cbn in Hinit. injection Hinit as <-. cbn [config]. apply load_config_has_default_keys. }
  assert (H : has_default_keys (config (serve_all rs c))).
  { clear Hinit. revert c H0. induction rs as [|r rs IH]; intros c H0; [exact H0|].
    cbn [serve_all fold_left]. apply IH. now apply serve_default_keys. }
  split; [exact H|].
  intros k. unfold run_caps, item.
  destruct (H "pump_max_runtime_seconds") as [va ->]; [now eexists|].
  destruct (py_int va) as [a|e] eqn:Ha.
  - destruct (H "manual_max_runtime_seconds") as [vm ->]; [now eexists|].
    destruct (py_int vm) as [b|e] eqn:Hb; [discriminate|].
    intros [= ->]. destruct vm; try discriminate Hb. cbn in Hb. destruct (int_of_str s); discriminate.
  - intros [= ->]. destruct va; try discriminate Ha. cbn in Ha. destruct (int_of_str s); discriminate.
Qed.

Lemma default_keys_always_present_witness :
  let c := serve_all [ReqConfig [("pump_max_runtime_seconds", PStr "x"); ("zz", PNone)];
                      ReqAutoMode (PBool false)] fresh in
  has_default_keys (config c) /\ forall k, run_caps (config c) <> Raise (KeyError k).
Proof.
  exact (default_keys_always_present None false fresh
           [ReqConfig [("pump_max_runtime_seconds", PStr "x"); ("zz", PNone)];
            ReqAutoMode (PBool false)] eq_refl).
Defined.

(** ** The status answer *)

(** X24. [/api/status] changes nothing and copies [running], [mode] and
    [stop_reason] from the pump record. The remaining seconds it reports
    are never negative; they are zero when no run is recorded, and zero
    from the recorded end [ends_at] of a run on; while a run is recorded
    with a second or more to go they are at least one. *)
Theorem remaining_seconds_sign (c : Controller) (now : Q) :
  exists s,
    BonsaiApi.api_status now c = (Ok s, c)
    /\ BonsaiApi.ps_running s = running (pump c)
    /\ BonsaiApi.ps_mode s = mode (pump c)
    /\ BonsaiApi.ps_stop_reason s = stop_reason (pump c)
    /\ 0 <= BonsaiApi.ps_remaining_seconds s
    /\ (running (pump c) = false -> BonsaiApi.ps_remaining_seconds s = 0)
    /\ ((ends_at (pump c) <= now)%Q -> BonsaiApi.ps_remaining_seconds s = 0)
    /\ (running (pump c) = true -> (now + 1 <= ends_at (pump c))%Q ->
        1 <= BonsaiApi.ps_remaining_seconds s).
Proof.
  unfold BonsaiApi.api_status, bind, read, ret. cbn [ctrl CtrlState_Controller].
  eexists. split; [reflexivity|].
  cbn [BonsaiApi.ps_running BonsaiApi.ps_mode BonsaiApi.ps_stop_reason
       BonsaiApi.ps_remaining_seconds].
  split; [reflexivity|]. split; [reflexivity|]. split; [reflexivity|].
  split; [destruct (running (pump c)); lia|].
  split; [now intros ->|]. split.
  - intros Hend. destruct (running (pump c)); [|reflexivity].
    apply Z.max_l. apply (round_half_even_le 0). change (inject_Z 0) with 0%Q. lra.
  - intros -> Hleft.
    assert (H1 : 1 <= round_half_even (ends_at (pump c) - now)).
    { apply round_half_even_ge. change (inject_Z 1) with 1%Q. lra. }
    lia.
Qed.

Lemma remaining_seconds_sign_witness :
  let env := mkRunEnv 100 100 [mkTick [] 101] 101 (mkSensorEnv true None) 101 101 101 in
  let c := snd (Bonsai._pump_worker "manual" 30 None env fresh) in
  exists s,
    BonsaiApi.api_status (1205 # 10) c = (Ok s, c)
    /\ BonsaiApi.ps_running s = true
    /\ 1 <= BonsaiApi.ps_remaining_seconds s.
Proof.
  intros env c.
  destruct (remaining_seconds_sign c (1205 # 10))
    as (s & Hs & Hr & _ & _ & _ & _ & _ & Hone).
  exists s. split; [exact Hs|]. split; [exact Hr|].
  apply Hone; vm_compute; [reflexivity|discriminate].
Defined.

Example remaining_seconds_rounds_to_even :
  BonsaiApi.ps_remaining_seconds
    (match fst (BonsaiApi.api_status (1205 # 10)
                  (snd (Bonsai._pump_worker "manual" 30 None
                          (mkRunEnv 100 100 [mkTick [] 101] 101 (mkSensorEnv true None)
                             101 101 101) fresh))) with
     | Ok s => s
     | Raise _ => BonsaiApi.mkPumpStatus false "" 0 ""
     end) = 10.
Proof. reflexivity. Qed.

(** ** Shutdown *)

(** X25. [shutdown], whether a run is active or not, sets the
    shutdown event, raises the stop signal and drives the relay to its off
    level itself, without waiting for a worker; the pump record is left to
    the worker. In the plugin the relay is driven only when it is ready:
    with a relay that never came up no GPIO call is made at all. *)
Theorem shutdown_forces_relay_off (c : Controller) (p : Plugin.t) :
  (let r := Bonsai.shutdown c in
   fst r = Ok tt
   /\ _shutdown (snd r) = true
   /\ _pump_stop_requested (snd r) = true
   /\ relay (snd r) = HIGH
   /\ pump (snd r) = pump c
   /\ trace (snd r)
      = trace c ++ [GpioOutput 26 HIGH; GpioCleanup]
          ++ (if display c then [DisplayClear] else []))
  /\ (let r := Plugin.shutdown p in
      let ready := Plugin.gpio_ready p && Plugin.hw_present p in
      fst r = Ok tt
      /\ _shutdown (Plugin.base (snd r)) = true
      /\ _pump_stop_requested (Plugin.base (snd r)) = true
      /\ relay (Plugin.base (snd r)) = (if ready then HIGH else relay (Plugin.base p))
      /\ trace (Plugin.base (snd r))
         = trace (Plugin.base p)
             ++ (if ready then [GpioOutput 26 HIGH; GpioCleanup] else [])
             ++ (if display (Plugin.base p) then [DisplayClear] else [])).
Proof.
  split.
  - destruct c as [cfg cm lw lwt mt pu sd st se di rl mr we tr].
    destruct di; cbn; rewrite <- ?app_assoc; repeat split; reflexivity.
  - destruct p as [pc hw g].
    destruct pc as [cfg cm lw lwt mt pu sd st se di rl mr we tr].
    destruct di, g, hw; cbn; rewrite <- ?app_assoc, ?app_nil_r; repeat split; reflexivity.
Qed.

(** ** A run and the next automatic run *)

(** X26. Every finished run, manual or automatic and whatever ended it,
    restarts the interval of the automatic gate: in a cycle of the monitor
    loop that comes before the minimal interval has elapsed since the
    worker recorded its end, no thread is started, however dry the soil. *)
Theorem finished_run_postpones_auto_run mode requested_seconds moisture_before env
    (c c' : Controller) run_seconds stop_reason (cenv : cycle_env)
    low high duration interval read_interval auto :
  Bonsai._pump_worker mode requested_seconds moisture_before env c
  = (Ok (Some (run_seconds, stop_reason)), c') ->
  monitor_settings (config c) low high duration interval read_interval auto ->
  (ce_now cenv - re_last env < inject_Z interval)%Q ->
  started_threads (trace (snd (Bonsai.monitor_cycle cenv c')))
  = started_threads (trace c').
Proof.
  intros Hrun Hset Hint.
  rewrite pump_worker_closed_form in Hrun.
  destruct (run_caps (config c)) as [caps|e]; [|discriminate].
  cbv zeta in Hrun.
  destruct (poll_events _ _ _ _ _ _ _) as [[r|] [sd st]]; [|discriminate].
  injection Hrun as <- <- <-.
  set (c' := finished_state _ _ _ _ _ _ _ _ _).
  assert (Hset' : monitor_settings (config c') low high duration interval read_interval auto)
    by exact Hset.
  rewrite (monitor_cycle_numeric _ _ _ _ _ _ _ _ Hset'). cbn [snd].
  rewrite cycle_state_threads. cbv zeta.
  rewrite <- (app_nil_r (started_threads (trace c'))) at 2. f_equal.
  assert (Hi : Qle_bool (inject_Z interval) (ce_now cenv - last_water_time c') = false).
  { apply not_true_is_false. rewrite Qle_bool_iff.
    change (last_water_time c') with (re_last env). lra. }
  unfold gate_open. rewrite Hi.
  destruct (match _ with Some m => Some m | None => current_moisture c' end);
    [|reflexivity].
  now rewrite !andb_false_r.
Qed.

Lemma finished_run_postpones_auto_run_witness :
  let env := mkRunEnv 100 100 [mkTick [] 101; mkTick [CallStopPump] 102] 102
               (mkSensorEnv true (Some 450)) 102 103 104 in
  let c' := snd (Bonsai._pump_worker "manual" 30 None env fresh) in
  let cenv := mkCycleEnv (mkSensorEnv true (Some 560)) 20000 28903 in
  started_threads (trace (snd (Bonsai.monitor_cycle cenv c')))
  = started_threads (trace c').
Proof.
  intros env c' cenv.
  refine (finished_run_postpones_auto_run "manual" 30 None env fresh c' 30 "manual_stop"
            cenv 35 65 60 28800 300 true _ _ _).
  - vm_compute. reflexivity.
  - repeat split; vm_compute; reflexivity.
  - vm_compute. reflexivity.
Defined.

(** ** The plugin and its hardware *)

(** X27. After the constructor of the plugin the relay is ready exactly
    when the hardware modules were imported and the three GPIO calls of
    [_setup_gpio] went through, and in that case the one write to the
    relay line is the one that drives it to its off level. In every case
    no run is recorded, both events are clear and the configuration is
    the loaded one. *)
Theorem plugin_init_relay file hw gpio_ok display_ok :
  let p := Plugin.init file hw gpio_ok display_ok in
  Plugin.gpio_ready p = hw && gpio_ok
  /\ Plugin.hw_present p = hw
  /\ (Plugin.gpio_ready p = true ->
      trace (Plugin.base p) = [GpioOutput 26 HIGH] /\ relay (Plugin.base p) = HIGH)
  /\ running (pump (Plugin.base p)) = false
  /\ _shutdown (Plugin.base p) = false
  /\ _pump_stop_requested (Plugin.base p) = false
  /\ config (Plugin.base p) = Plugin._load_config file.
Proof.
  destruct hw, gpio_ok; cbv zeta;
    (split; [reflexivity|]); (split; [reflexivity|]);
    (split; [|repeat split; reflexivity]);
    first [discriminate | intros _; split; reflexivity].
Qed.

Lemma plugin_init_relay_witness :
  let p := Plugin.init None true true false in
  Plugin.gpio_ready p = true
  /\ trace (Plugin.base p) = [GpioOutput 26 HIGH]
  /\ relay (Plugin.base p) = HIGH.
Proof.
  intros p.
  destruct (plugin_init_relay None true true false) as (Hg & _ & Hready & _).
  split; [exact Hg|]. exact (Hready Hg).
Defined.

(** X28. The OLED switch, with a display attached. [set_oled_enabled]
    saves the setting under [oled_enabled] whatever happens next.
    Switching on shows [WAIT] at once and answers [True]. Switching off
    blanks the display and answers [True], or, when blanking raises,
    leaves the display as it is and answers [False] with the text of the
    exception. In all three cases a later [_update_display] shows its
    label exactly when the switch was set to on. *)
Theorem oled_switch_gates_display (p : Plugin.t) (enabled : bool) (clear : option string)
    (status : string) :
  display (Plugin.base p) = true ->
  let r := PluginApi.set_oled_enabled enabled clear p in
  let p' := snd r in
  fst r = Ok (Some (config (Plugin.base p')),
              if enabled then (true, "OLED turned ON.")
              else match clear with
                   | None => (true, "OLED turned OFF.")
                   | Some text => (false, String.append "OLED update failed: " text)
                   end)
  /\ config (Plugin.base p') = <["oled_enabled" := PBool enabled]> (config (Plugin.base p))
  /\ trace (Plugin.base p')
     = trace (Plugin.base p)
       ++ (if enabled then [DisplayShow "WAIT"]
           else match clear with None => [DisplayClear] | Some _ => [] end)
  /\ trace (Plugin.base (snd (Plugin._update_display status p')))
     = trace (Plugin.base p') ++ (if enabled then [DisplayShow status] else []).
Proof.
  intros Hd r p'. subst r p'.
  destruct p as [c hw g].
  destruct c as [cfg cm lw lwt mt pu sd st se di rl mr we tr].
  cbn [Plugin.base display] in Hd. subst di.
  unfold PluginApi.set_oled_enabled, Plugin._update_display.
  destruct enabled; [|destruct clear as [text|]];
    repeat (progress
      (cbv beta iota zeta delta [bind read ret lift modify emit upd ctrl
         Plugin.CtrlState_t Plugin.base Plugin.gpio_ready Plugin.hw_present negb fst snd
         set_config set_trace config pump current_moisture last_watered last_water_time
         manual_toggle_on _shutdown _pump_stop_requested sensor display relay
         moisture_readings watering_events trace py_bool];
       rewrite ?lookup_insert_eq));
    rewrite ?app_nil_r; repeat split; reflexivity.
Qed.

Lemma oled_switch_gates_display_witness :
  let p := Plugin.init None true true true in
  let r := PluginApi.set_oled_enabled false (Some "I2C write failed") p in
  let p' := snd r in
  fst r = Ok (Some (config (Plugin.base p')),
              (false, "OLED update failed: I2C write failed"))
  /\ config (Plugin.base p') = <["oled_enabled" := PBool false]> (config (Plugin.base p))
  /\ trace (Plugin.base p') = trace (Plugin.base p) ++ []
  /\ trace (Plugin.base (snd (Plugin._update_display "DRY" p')))
     = trace (Plugin.base p') ++ [].
Proof.
  exact (oled_switch_gates_display (Plugin.init None true true true) false
           (Some "I2C write failed") "DRY" eq_refl).
Defined.

Example oled_switch_off_blanks_display :
  let p := Plugin.init None true true true in
  let r := PluginApi.set_oled_enabled false None p in
  fst r = Ok (Some (config (Plugin.base (snd r))), (true, "OLED turned OFF."))
  /\ trace (Plugin.base (snd r)) = [GpioOutput 26 HIGH; DisplayClear].
Proof. split; vm_compute; reflexivity. Qed.

Lemma starts_nothing_ret {A : Type} (a : A) : starts_nothing (ret a).
Proof. intros p Hg. now split. Qed.

Lemma starts_nothing_lift {A : Type} (r : result A) : starts_nothing (lift r).
Proof. intros p Hg. now split. Qed.

Lemma starts_nothing_read {A : Type} (f : Controller -> A) : starts_nothing (read f).
Proof. intros p Hg. now split. Qed.

Lemma starts_nothing_modify (f : Controller -> Controller) :
  (forall c, trace (f c) = trace c) -> starts_nothing (modify f).
Proof.
  intros Hf p Hg. destruct p as [c hw g]. cbn in *. rewrite Hf. now split.
Qed.

Lemma starts_nothing_emit (e : effect) :
  is_thread_start e = false -> starts_nothing (emit e).
Proof.
  intros He p Hg. destruct p as [c hw g]. destruct c. cbn in *.
  split; [exact Hg|]. rewrite started_threads_app.
  destruct e; try discriminate He; cbn; apply app_nil_r.
Qed.

Lemma starts_nothing_bind {A B : Type} (m : M Plugin.t A) (k : A -> M Plugin.t B) :
  starts_nothing m -> (forall a, starts_nothing (k a)) -> starts_nothing (bind m k).
Proof.
  intros Hm Hk p Hg. unfold bind. destruct (Hm p Hg) as [Hg' Ht].
  destruct (m p) as [[a|e] p']; cbn [snd] in *.
  - destruct (Hk a p' Hg') as [Hg'' Ht']. split; [exact Hg''|congruence].
  - now split.
Qed.

Lemma starts_nothing_if {A : Type} (b : Plugin.t -> bool) (m1 m2 : M Plugin.t A) :
  starts_nothing m1 -> starts_nothing m2 ->
  starts_nothing (fun p => if b p then m1 p else m2 p).
Proof. intros H1 H2 p Hg. destruct (b p); [now apply H1 | now apply H2]. Qed.

Lemma starts_nothing_start_pump mode seconds :
  starts_nothing (Plugin.start_pump mode seconds).
Proof.
  intros p Hg. unfold Plugin.start_pump. rewrite Hg. now split.
Qed.

Ltac starts_nothing_steps :=
  repeat first
    [ apply starts_nothing_ret | apply starts_nothing_lift | apply starts_nothing_read
    | apply starts_nothing_start_pump
    | apply starts_nothing_emit; reflexivity
    | apply starts_nothing_modify; intros c0; destruct c0; reflexivity
    | apply starts_nothing_bind; [|intros ?]
    | apply (starts_nothing_if (fun p => negb (Plugin.hw_present p)))
    | match goal with
      | |- starts_nothing (match ?x with _ => _ end) => destruct x
      end
    | progress cbv zeta ].

Lemma plugin_monitor_starts_nothing env : starts_nothing (Plugin.monitor_cycle env).
Proof.
  unfold Plugin.monitor_cycle, Plugin._read_moisture, Plugin._get_sensor,
    Plugin._log_moisture, Plugin._update_display.
  starts_nothing_steps.
Qed.

(** X29. With a relay that is not ready, the monitor loop of the plugin goes
    on (it reads and logs as usual) but no cycle ever starts a pump
    thread, whatever the moisture and the configuration, and the manual
    toggle does not either: the relay stays unready and the list of
    started threads is the same after any number of cycles and toggles. *)
Theorem plugin_not_ready_starts_nothing (p : Plugin.t)
    (steps : list (cycle_env + bool)) :
  Plugin.gpio_ready p = false ->
  let run := fold_left
               (fun p s => match s with
                           | inl env => snd (Plugin.monitor_cycle env p)
                           | inr enabled => snd (Plugin.api_manual_toggle enabled p)
                           end) steps p in
  Plugin.gpio_ready run = false
  /\ started_threads (trace (Plugin.base run)) = started_threads (trace (Plugin.base p)).
Proof.
  intros Hg. cbv zeta. revert p Hg.
  induction steps as [|s steps IH]; intros p Hg; [now split|].
  cbn [fold_left].
  assert (Hs : starts_nothing
                 (fun p => match s with
                           | inl env => (Ok tt, snd (Plugin.monitor_cycle env p))
                           | inr enabled => (Ok tt, snd (Plugin.api_manual_toggle enabled p))
                           end)).
  { destruct s as [env|enabled]; intros q Hq; cbn [snd].
    - apply plugin_monitor_starts_nothing, Hq.
    - revert q Hq. change (starts_nothing (Plugin.api_manual_toggle enabled)).
      unfold Plugin.api_manual_toggle, config_item, Plugin.stop_pump.
      destruct enabled; starts_nothing_steps. }
  destruct (Hs p Hg) as [Hg' Ht].
  destruct s as [env|enabled]; cbn [snd] in Hg', Ht;
    destruct (IH _ Hg') as [Hg'' Ht'']; split; congruence.
Qed.

Lemma plugin_not_ready_starts_nothing_witness :
  let p := Plugin.init None true false true in
  let run := fold_left
               (fun p s => match s with
                           | inl env => snd (Plugin.monitor_cycle env p)
                           | inr enabled => snd (Plugin.api_manual_toggle enabled p)
                           end)
               [inl (mkCycleEnv (mkSensorEnv true (Some 560)) 1000 40000); inr true] p in
  Plugin.gpio_ready run = false
  /\ started_threads (trace (Plugin.base run)) = started_threads (trace (Plugin.base p)).
Proof.
  exact (plugin_not_ready_starts_nothing (Plugin.init None true false true)
           [inl (mkCycleEnv (mkSensorEnv true (Some 560)) 1000 40000); inr true] eq_refl).
Defined.

Example plugin_not_ready_still_logs :
  moisture_readings
    (Plugin.base (snd (Plugin.monitor_cycle
                         (mkCycleEnv (mkSensorEnv true (Some 560)) 1000 40000)
                         (Plugin.init None true false true))))
  = [mkMoistureReading 1000 (Bonsai._convert_moisture 560)].
Proof. reflexivity. Qed.
